(** * Crypto-Reward Puzzle API: the points ledger of [main.py]

    A shallow embedding of the request handlers of [main.py] (register,
    start_session, submit_score, request_withdrawal, leaderboard) and of
    the award function [points_for], over an explicit model of the four
    MongoDB collections the handlers read and write.

    Python integers are unbounded, so they are [Z]; [//] is floor
    division, as is [Z.div] for a positive divisor; the width of the
    integers the store can hold is not modelled.  Documents are the
    dictionaries the handlers build, one record type per collection.
    A collection is the list of its documents in insertion order. *)

From stdpp Require Import base option list sorting gmap strings.
From Stdlib Require Import ZArith Lia.

Local Open Scope string_scope.
Local Open Scope list_scope.
Local Open Scope Z_scope.

(** ** Request bodies (the pydantic models of [main.py]) *)

Module RegisterBody.
Record t := mk
  { username : string;
    ton_address : option string;
    referred_by : option string }.
End RegisterBody.

Module StartSessionBody.
Record t := mk { username : string; game : string }.
End StartSessionBody.

Module SubmitScoreBody.
Record t := mk
  { username : string; game : string; score : Z; duration_sec : Z }.
End SubmitScoreBody.

Module WithdrawalBody.
Record t := mk { username : string; ton_address : string; points : Z }.
End WithdrawalBody.

(** ** Stored documents *)

(** [datetime.now(timezone.utc)]: the clock reading is an input of each
    handler. *)
Definition datetime := Z.

(** The document [register] inserts into the "user" collection.  No
    handler inserts user documents otherwise, so all six fields are
    always there and [user.get("balance", 0)] and [user.get("is_banned")]
    read the stored fields. *)
Module User.
Record t := mk
  { username : string;
    ton_address : option string;
    referred_by : option string;
    is_banned : bool;
    balance : Z;
    created_at : datetime }.

Definition inc_balance (delta : Z) (u : t) : t :=
  {| username := username u;
     ton_address := ton_address u;
     referred_by := referred_by u;
     is_banned := is_banned u;
     balance := balance u + delta;
     created_at := created_at u |}.
End User.

(** The document [start_session] inserts into "gamesession". *)
Module Gamesession.
Record t := mk
  { username : string;
    game : string;
    score : Z;
    duration_sec : Z;
    created_at : datetime }.
End Gamesession.

(** The document [submit_score] inserts into "reward". *)
Module Reward.
Record t := mk
  { username : string;
    game : string;
    score : Z;
    points_awarded : Z;
    reason : string;
    created_at : datetime }.
End Reward.

(** [Literal["pending", "approved", "rejected"]] of [schemas.py]. *)
Inductive status := pending | approved | rejected.

#[global] Instance status_eq_dec : EqDecision status.
Proof. solve_decision. Defined.

(** The document [request_withdrawal] inserts into "withdrawalrequest". *)
Module Withdrawalrequest.
Record t := mk
  { username : string;
    ton_address : string;
    points : Z;
    status : status;
    created_at : datetime }.
End Withdrawalrequest.

(** ** The database *)

Record Database := mkDatabase
  { user : list User.t;
    gamesession : list Gamesession.t;
    reward : list Reward.t;
    withdrawalrequest : list Withdrawalrequest.t }.

Definition empty_db : Database := mkDatabase [] [] [] [].

Inductive collection_name :=
  | c_user | c_gamesession | c_reward | c_withdrawalrequest.

Definition document (c : collection_name) : Type :=
  match c with
  | c_user => User.t
  | c_gamesession => Gamesession.t
  | c_reward => Reward.t
  | c_withdrawalrequest => Withdrawalrequest.t
  end.

(** [collection(name).insert_one(doc)]: the document goes to the end of
    its collection. *)
Definition insert_one (c : collection_name) : document c → Database → Database :=
  match c return document c → Database → Database with
  | c_user => λ d db,
      mkDatabase (user db ++ [d]) (gamesession db) (reward db) (withdrawalrequest db)
  | c_gamesession => λ d db,
      mkDatabase (user db) (gamesession db ++ [d]) (reward db) (withdrawalrequest db)
  | c_reward => λ d db,
      mkDatabase (user db) (gamesession db) (reward db ++ [d]) (withdrawalrequest db)
  | c_withdrawalrequest => λ d db,
      mkDatabase (user db) (gamesession db) (reward db) (withdrawalrequest db ++ [d])
  end.

(** [collection("user").find_one({"username": name})]: the first
    document with that username, if any. *)
Fixpoint find_one (name : string) (c : list User.t) : option User.t :=
  match c with
  | [] => None
  | u :: c' => if decide (User.username u = name) then Some u else find_one name c'
  end.

(** [collection("user").update_one({"username": name}, {"$inc": {"balance": delta}})]:
    the first document with that username gets its balance changed by
    [delta]; no document matching is not an error. *)
Fixpoint update_one_inc_balance (name : string) (delta : Z) (c : list User.t)
  : list User.t :=
  match c with
  | [] => []
  | u :: c' =>
      if decide (User.username u = name)
      then User.inc_balance delta u :: c'
      else u :: update_one_inc_balance name delta c'
  end.

Definition update_one (name : string) (delta : Z) (db : Database) : Database :=
  mkDatabase (update_one_inc_balance name delta (user db))
             (gamesession db) (reward db) (withdrawalrequest db).

(** ** Handlers run in a state and exception monad

    A handler reads and writes the database and may raise; what it wrote
    before raising stays written. *)

Inductive exn :=
  | HTTPException (status_code : Z) (detail : string)
  | OperationFailure (errmsg : string).

Definition NotFound : exn := HTTPException 404 "User not found".
Definition Forbidden : exn := HTTPException 403 "User banned".
Definition InvalidAmount : exn := HTTPException 400 "Invalid amount".

Definition M (A : Type) : Type := Database → (exn + A) * Database.

#[global] Instance M_ret : MRet M := λ A (a : A) db, (inr a, db).
#[global] Instance M_bind : MBind M := λ A B (f : A → M B) (m : M A) db,
  match m db with
  | (inl e, db') => (inl e, db')
  | (inr a, db') => f a db'
  end.

Definition raise {A} (e : exn) : M A := λ db, (inl e, db).
Definition get_db : M Database := λ db, (inr db, db).
Definition modify_db (f : Database → Database) : M unit := λ db, (inr tt, f db).

(** Modelled from the spec: [create_document] of the [database] module,
    which is not among the sources.  The spec gives the store an
    [insert(collection, document)] operation; the document is appended
    to the named collection. *)
Definition create_document (c : collection_name) (d : document c) : M unit :=
  modify_db (insert_one c d).

(** ** Helpers *)

Definition ensure_user (username : string) : M User.t :=
  db ← get_db;
  match find_one username (user db) with
  | None => raise NotFound
  | Some u => mret u
  end.

Definition cap_map : gmap string Z :=
  {[ "word" := 100; "tiles" := 100; "parking" := 100 ]}.

(** Simple points function: 1 point per 10 score, capped per session. *)
Definition points_for (game : string) (score : Z) : Z :=
  let base := Z.max 0 (score `div` 10) in
  Z.min base (default 100 (cap_map !! game)).

(** ** Routes *)

Record RegisterResponse := mkRegisterResponse
  { register_ok : bool; register_message : option string }.

Definition register (body : RegisterBody.t) (now : datetime) : M RegisterResponse :=
  db ← get_db;
  match find_one (RegisterBody.username body) (user db) with
  | Some _ => mret (mkRegisterResponse true (Some "User exists"))
  | None =>
    let doc :=
      User.mk (RegisterBody.username body)
              (RegisterBody.ton_address body)
              (RegisterBody.referred_by body)
              false 0 now in
    modify_db (insert_one c_user doc);;
    mret (mkRegisterResponse true None)
  end.

Definition start_session (body : StartSessionBody.t) (now : datetime) : M bool :=
  user ← ensure_user (StartSessionBody.username body);
  if User.is_banned user then raise Forbidden
  else
    let sess :=
      Gamesession.mk (StartSessionBody.username body)
                     (StartSessionBody.game body) 0 0 now in
    create_document c_gamesession sess;;
    mret true.

Record SubmitScoreResponse := mkSubmitScoreResponse
  { submit_ok : bool; awarded : Z }.

Definition submit_score (body : SubmitScoreBody.t) (now : datetime)
  : M SubmitScoreResponse :=
  user ← ensure_user (SubmitScoreBody.username body);
  if User.is_banned user then raise Forbidden
  else
    let pts := points_for (SubmitScoreBody.game body) (SubmitScoreBody.score body) in
    let reward_doc :=
      Reward.mk (SubmitScoreBody.username body)
                (SubmitScoreBody.game body)
                (SubmitScoreBody.score body)
                pts "session_completed" now in
    create_document c_reward reward_doc;;
    modify_db (update_one (SubmitScoreBody.username body) pts);;
    mret (mkSubmitScoreResponse true pts).

Record WithdrawalResponse := mkWithdrawalResponse
  { withdraw_ok : bool; withdraw_status : status }.

Definition request_withdrawal (body : WithdrawalBody.t) (now : datetime)
  : M WithdrawalResponse :=
  user ← ensure_user (WithdrawalBody.username body);
  if decide (WithdrawalBody.points body ≤ 0
             ∨ WithdrawalBody.points body > User.balance user)
  then raise InvalidAmount
  else
    let req :=
      Withdrawalrequest.mk (WithdrawalBody.username body)
                           (WithdrawalBody.ton_address body)
                           (WithdrawalBody.points body)
                           pending now in
    create_document c_withdrawalrequest req;;
    modify_db (update_one (WithdrawalBody.username body) (- WithdrawalBody.points body));;
    mret (mkWithdrawalResponse true pending).

(** ** Leaderboard: the aggregation pipeline

    [collection("reward").aggregate(pipeline)] runs three stages over
    the reward documents.  The order in which [$group] emits its groups,
    and the order [$sort] leaves between equal totals, are the store's
    own; here they are those of [map_to_list] and of a merge sort. *)

(** [{"$group": {"_id": "$username", "total": {"$sum": "$points_awarded"}}}] *)
Definition group_totals (rs : list Reward.t) : gmap string Z :=
  foldr (λ r acc,
           <[ Reward.username r :=
                default 0 (acc !! Reward.username r) + Reward.points_awarded r ]> acc)
        ∅ rs.

Definition group_stage (rs : list Reward.t) : list (string * Z) :=
  map_to_list (group_totals rs).

(** [{"$sort": {"total": -1}}]: descending by total. *)
Definition total_desc (a b : string * Z) : Prop := b.2 ≤ a.2.

#[global] Instance total_desc_dec a b : Decision (total_desc a b).
Proof. unfold total_desc. apply _. Defined.

Definition sort_stage (rows : list (string * Z)) : list (string * Z) :=
  merge_sort total_desc rows.

(** [{"$limit": limit}]: the stage takes a positive integer and passes
    on that many documents at most; the store rejects a pipeline whose
    limit is zero or negative. *)
Definition limit_stage (limit : Z) (rows : list (string * Z))
  : exn + list (string * Z) :=
  if decide (0 < limit) then inr (take (Z.to_nat limit) rows)
  else inl (OperationFailure "the limit must be positive").

Definition aggregate (limit : Z) (rs : list Reward.t) : exn + list (string * Z) :=
  limit_stage limit (sort_stage (group_stage rs)).

(** The rows of the response are [(username, points)] pairs. *)
Definition leaderboard (limit : Z) : M (list (string * Z)) :=
  db ← get_db;
  match aggregate limit (reward db) with
  | inl e => raise e
  | inr results => mret ((λ r, (r.1, r.2)) <$> results)
  end.

(** ** Sequential runs *)

Inductive request :=
  | PostRegister (body : RegisterBody.t) (now : datetime)
  | PostStartSession (body : StartSessionBody.t) (now : datetime)
  | PostSubmitScore (body : SubmitScoreBody.t) (now : datetime)
  | PostWithdraw (body : WithdrawalBody.t) (now : datetime)
  | GetLeaderboard (limit : Z).

(** The database a request leaves behind, whether it succeeded or raised. *)
Definition handle (db : Database) (rq : request) : Database :=
  match rq with
  | PostRegister body now => (register body now db).2
  | PostStartSession body now => (start_session body now db).2
  | PostSubmitScore body now => (submit_score body now db).2
  | PostWithdraw body now => (request_withdrawal body now db).2
  | GetLeaderboard limit => (leaderboard limit db).2
  end.

Definition run (rqs : list request) (db : Database) : Database :=
  foldl handle db rqs.

(** ** Ledger totals *)

Fixpoint sum_points_awarded (name : string) (rs : list Reward.t) : Z :=
  match rs with
  | [] => 0
  | r :: rs' =>
      (if decide (Reward.username r = name) then Reward.points_awarded r else 0)
      + sum_points_awarded name rs'
  end.

Fixpoint sum_withdrawn (name : string) (ws : list Withdrawalrequest.t) : Z :=
  match ws with
  | [] => 0
  | w :: ws' =>
      (if decide (Withdrawalrequest.username w = name
                  ∧ Withdrawalrequest.status w ≠ rejected)
       then Withdrawalrequest.points w else 0)
      + sum_withdrawn name ws'
  end.

(** ** The effect of one request on the database

    Every request either leaves the database as it is (it raised, the
    user was already registered, or it is the leaderboard), or has the
    effect of exactly one of the four writing paths. *)

Inductive effect (db : Database) : Database → Prop :=
  | effect_none : effect db db
  | effect_registered body now :
      find_one (RegisterBody.username body) (user db) = None →
      effect db
        (insert_one c_user
           (User.mk (RegisterBody.username body) (RegisterBody.ton_address body)
                    (RegisterBody.referred_by body) false 0 now) db)
  | effect_session_started (sess : Gamesession.t) :
      effect db (insert_one c_gamesession sess db)
  | effect_credited body now u :
      find_one (SubmitScoreBody.username body) (user db) = Some u →
      User.is_banned u = false →
      effect db
        (update_one (SubmitScoreBody.username body)
           (points_for (SubmitScoreBody.game body) (SubmitScoreBody.score body))
           (insert_one c_reward
              (Reward.mk (SubmitScoreBody.username body) (SubmitScoreBody.game body)
                 (SubmitScoreBody.score body)
                 (points_for (SubmitScoreBody.game body) (SubmitScoreBody.score body))
                 "session_completed" now) db))
  | effect_debited body now u :
      find_one (WithdrawalBody.username body) (user db) = Some u →
      0 < WithdrawalBody.points body ≤ User.balance u →
      effect db
        (update_one (WithdrawalBody.username body) (- WithdrawalBody.points body)
           (insert_one c_withdrawalrequest
              (Withdrawalrequest.mk (WithdrawalBody.username body)
                 (WithdrawalBody.ton_address body)
                 (WithdrawalBody.points body) pending now) db)).

(** ** Invariants of the ledger *)

Definition balances_nonneg (db : Database) : Prop :=
  Forall (λ u, 0 ≤ User.balance u) (user db).

(** Usernames are unique, every ledger record names a registered user,
    and each balance is what the ledger records add up to. *)
Record ledger_inv (db : Database) : Prop := mk_ledger_inv
  { inv_unique : NoDup (User.username <$> user db);
    inv_reward_user :
      Forall (λ r, Reward.username r ∈ User.username <$> user db) (reward db);
    inv_withdrawal_user :
      Forall (λ w, Withdrawalrequest.username w ∈ User.username <$> user db)
             (withdrawalrequest db);
    inv_balance :
      Forall (λ u, User.balance u
                   = sum_points_awarded (User.username u) (reward db)
                     - sum_withdrawn (User.username u) (withdrawalrequest db))
             (user db) }.

(** ** Frame of a balance update

    Between [db] and [db'] the user collection differs in one document,
    the first one named [name], and that document differs in its balance
    only; sessions are untouched. *)
Definition only_balance_changed (name : string) (db db' : Database) : Prop :=
  ∃ l1 u u' l2,
    user db = l1 ++ u :: l2
    ∧ user db' = l1 ++ u' :: l2
    ∧ Forall (λ v, User.username v ≠ name) l1
    ∧ User.username u = name
    ∧ User.username u' = User.username u
    ∧ User.ton_address u' = User.ton_address u
    ∧ User.referred_by u' = User.referred_by u
    ∧ User.is_banned u' = User.is_banned u
    ∧ User.created_at u' = User.created_at u
    ∧ gamesession db' = gamesession db.

(** ** What the leaderboard owes its caller

    [rows] is a leaderboard of at most [n] rows over the rewards [rs]:
    one row per username, each row a username that has rewards together
    with the sum of its awards, rows in descending order of total, and a
    username with rewards is left out only when [n] rows are already
    there, none with a smaller total. *)
Record top_totals (rs : list Reward.t) (n : nat) (rows : list (string * Z)) : Prop :=
  mk_top_totals
  { top_grouped : NoDup rows.*1;
    top_summed : ∀ name t,
      (name, t) ∈ rows →
      name ∈ Reward.username <$> rs ∧ t = sum_points_awarded name rs;
    top_descending : StronglySorted (λ a b, b.2 ≤ a.2) rows;
    top_truncated : (length rows ≤ n)%nat;
    top_complete : ∀ name,
      name ∈ Reward.username <$> rs →
      (name, sum_points_awarded name rs) ∈ rows
      ∨ (length rows = n
         ∧ ∀ kept, kept ∈ rows → sum_points_awarded name rs ≤ kept.2) }.

(** ** Sample data *)

Definition alice : User.t := User.mk "alice" (Some "EQalice") None false 70 5.
Definition bob : User.t := User.mk "bob" None (Some "alice") false 30 6.

Definition db_alice_bob : Database := mkDatabase [alice; bob] [] [] [].

Definition mallory : User.t := User.mk "mallory" (Some "EQmallory") None true 50 7.

Definition db_mallory : Database := mkDatabase [mallory] [] [] [].

(** Alice registers, scores 999 at "word", withdraws 40, then asks for
    more than is left. *)
Definition alice_session : list request :=
  [ PostRegister (RegisterBody.mk "alice" None None) 1;
    PostSubmitScore (SubmitScoreBody.mk "alice" "word" 999 42) 2;
    PostWithdraw (WithdrawalBody.mk "alice" "EQalice" 40) 3;
    PostWithdraw (WithdrawalBody.mk "alice" "EQalice" 60) 4 ].

(** The rewards {A:50, B:30, A:20}. *)
Definition rewards_A_B_A : list Reward.t :=
  [ Reward.mk "A" "word" 500 50 "session_completed" 1;
    Reward.mk "B" "tiles" 300 30 "session_completed" 2;
    Reward.mk "A" "parking" 200 20 "session_completed" 3 ].

Definition db_A_B_A : Database :=
  mkDatabase [User.mk "A" None None false 70 0; User.mk "B" None None false 30 0]
             [] rewards_A_B_A [].

(** ** The profile route

    [me] reads the user and then the user's rewards through
    [get_documents] of the [database] module, which is not among the
    sources; the helper is a parameter here, an arbitrary computation
    that is handed the collection, the username of the filter and the
    limit. *)

Record MeResponse := mkMeResponse
  { me_username : string;
    me_balance : Z;
    me_ton_address : option string;
    me_rewards : list Reward.t }.

Definition me (get_documents : collection_name → string → Z → M (list Reward.t))
    (username : string) : M MeResponse :=
  user ← ensure_user username;
  rewards ← get_documents c_reward username 50;
  mret (mkMeResponse (User.username user) (User.balance user)
                     (User.ton_address user) rewards).

(** ** The exception a request raises, if any *)

Definition raised {A} (r : (exn + A) * Database) : option exn :=
  match r.1 with inl e => Some e | inr _ => None end.

Definition outcome (db : Database) (rq : request) : option exn :=
  match rq with
  | PostRegister body now => raised (register body now db)
  | PostStartSession body now => raised (start_session body now db)
  | PostSubmitScore body now => raised (submit_score body now db)
  | PostWithdraw body now => raised (request_withdrawal body now db)
  | GetLeaderboard limit => raised (leaderboard limit db)
  end.

(** ** The constraints of [schemas.py]

    The pydantic models of [schemas.py] put bounds on the fields of the
    stored documents; [main.py] does not import them.  Each predicate
    below is the conjunction of the [Literal] and [ge] constraints of
    one model on the fields the handlers store. *)

Definition games : list string := ["word"; "tiles"; "parking"].

(** [User]: [balance: int = Field(0, ge=0)]. *)
Definition schema_User (u : User.t) : Prop := 0 ≤ User.balance u.

(** [Gamesession]: [game] one of the three, [score] and [duration_sec]
    at least 0. *)
Definition schema_Gamesession (s : Gamesession.t) : Prop :=
  Gamesession.game s ∈ games
  ∧ 0 ≤ Gamesession.score s ∧ 0 ≤ Gamesession.duration_sec s.

(** [Reward]: [game] one of the three, [score] and [points_awarded] at
    least 0. *)
Definition schema_Reward (r : Reward.t) : Prop :=
  Reward.game r ∈ games
  ∧ 0 ≤ Reward.score r ∧ 0 ≤ Reward.points_awarded r.

(** [Withdrawalrequest]: [points: int = Field(..., ge=1)]; the status is
    one of the three by its type. *)
Definition schema_Withdrawalrequest (w : Withdrawalrequest.t) : Prop :=
  1 ≤ Withdrawalrequest.points w.

(** ** More invariants of sequential runs *)

(** No stored user is banned. *)
Definition never_banned (db : Database) : Prop :=
  Forall (λ u, User.is_banned u = false) (user db).

(** What the two ledger collections hold: rewards carry the award of
    their own game and score and the one reason the code knows;
    withdrawal requests are pending and for at least one point. *)
Record records_wf (db : Database) : Prop := mk_records_wf
  { wf_reward :
      Forall (λ r, Reward.points_awarded r = points_for (Reward.game r) (Reward.score r)
                   ∧ Reward.reason r = "session_completed")
             (reward db);
    wf_withdrawal :
      Forall (λ w, 1 ≤ Withdrawalrequest.points w
                   ∧ Withdrawalrequest.status w = pending)
             (withdrawalrequest db) }.

(** A user document without its balance: what no handler ever changes. *)
Definition identity (u : User.t)
  : string * option string * option string * bool * datetime :=
  (User.username u, User.ton_address u, User.referred_by u,
   User.is_banned u, User.created_at u).

(** [db'] holds everything [db] holds, in the same places: the
    collections only grow at their end, and user documents differ at
    most in their balance. *)
Record grows (db db' : Database) : Prop := mk_grows
  { grows_user : (identity <$> user db) `prefix_of` (identity <$> user db');
    grows_gamesession : gamesession db `prefix_of` gamesession db';
    grows_reward : reward db `prefix_of` reward db';
    grows_withdrawalrequest : withdrawalrequest db `prefix_of` withdrawalrequest db' }.

(** The number of reward records of a user. *)
Fixpoint count_rewards (name : string) (rs : list Reward.t) : Z :=
  match rs with
  | [] => 0
  | r :: rs' =>
      (if decide (Reward.username r = name) then 1 else 0) + count_rewards name rs'
  end.

(** Bob scores twice and withdraws; Carol registers and asks for the
    board. *)
Definition bob_session : list request :=
  [ PostRegister (RegisterBody.mk "bob" (Some "EQbob") None) 1;
    PostStartSession (StartSessionBody.mk "bob" "tiles") 2;
    PostSubmitScore (SubmitScoreBody.mk "bob" "tiles" 5000 90) 3;
    PostSubmitScore (SubmitScoreBody.mk "bob" "chess" 250 30) 4;
    PostWithdraw (WithdrawalBody.mk "bob" "EQbob" 75) 5;
    PostRegister (RegisterBody.mk "carol" None (Some "bob")) 6;
    GetLeaderboard 10 ].

(** * Proofs *)

(** ** The award function *)

Lemma cap_map_get (game : string) : default 100 (cap_map !! game) = 100.
Proof.
  unfold cap_map.
  destruct (decide (game = "word")) as [->|?]; [done|].
  destruct (decide (game = "tiles")) as [->|?]; [done|].
  destruct (decide (game = "parking")) as [->|?]; [done|].
  by rewrite !lookup_insert_ne, lookup_singleton_ne by done.
Qed.

Lemma points_for_eq (game : string) (score : Z) :
  points_for game score = Z.min (Z.max 0 (score `div` 10)) 100.
Proof. unfold points_for. by rewrite cap_map_get. Qed.

Lemma points_for_range (game : string) (score : Z) :
  0 ≤ points_for game score ≤ 100.
Proof. rewrite points_for_eq. lia. Qed.

(** C1: for a non-negative score the award is [min (score // 10) 100]
    whatever the game identifier, it is not negative, and the cap looked
    up in [cap_map] is 100 for the three known games and for any other
    identifier. *)
Theorem points_for_nonneg_score (game : string) (score : Z) :
  0 ≤ score →
  points_for game score = Z.min (score `div` 10) 100
  ∧ 0 ≤ points_for game score
  ∧ default 100 (cap_map !! game) = 100
  ∧ cap_map !! "word" = Some 100
  ∧ cap_map !! "tiles" = Some 100
  ∧ cap_map !! "parking" = Some 100.
Proof.
  intros Hs. split_and!; try done.
  - rewrite points_for_eq.
    assert (0 ≤ score `div` 10) by (apply Z.div_pos; lia). lia.
  - apply points_for_range.
  - apply cap_map_get.
Qed.

Lemma points_for_nonneg_score_witness :
  points_for "chess" 12345 = Z.min (12345 `div` 10) 100
  ∧ 0 ≤ points_for "chess" 12345
  ∧ default 100 (cap_map !! "chess") = 100
  ∧ cap_map !! "word" = Some 100
  ∧ cap_map !! "tiles" = Some 100
  ∧ cap_map !! "parking" = Some 100.
Proof. apply (points_for_nonneg_score "chess" 12345). lia. Defined.

(** ** Lookup and update in the user collection *)

Lemma find_one_username name c u :
  find_one name c = Some u → User.username u = name.
Proof.
  induction c as [|v c IH]; simpl; [done|].
  case_decide; [by intros [= ->] | done].
Qed.

Lemma find_one_elem_of name c u : find_one name c = Some u → u ∈ c.
Proof.
  induction c as [|v c IH]; simpl; [done|].
  case_decide.
  - intros [= ->]. left.
  - intros. right. auto.
Qed.

Lemma find_one_None name c :
  find_one name c = None ↔ name ∉ User.username <$> c.
Proof.
  induction c as [|v c IH]; simpl.
  - split; [intros _; apply not_elem_of_nil | done].
  - rewrite not_elem_of_cons. case_decide as Hv.
    + split; [done | by intros [? _]].
    + rewrite IH. split; [by intros; split | by intros [_ ?]].
Qed.

Lemma find_one_snoc name c v :
  find_one name (c ++ [v]) =
  match find_one name c with
  | Some u => Some u
  | None => if decide (User.username v = name) then Some v else None
  end.
Proof.
  induction c as [|w c IH]; simpl; [done|].
  destruct (decide (User.username w = name)); [done | apply IH].
Qed.

Lemma update_one_inc_balance_names name delta c :
  User.username <$> update_one_inc_balance name delta c = User.username <$> c.
Proof.
  induction c as [|v c IH]; csimpl; [done|].
  case_decide; csimpl; [done | by rewrite IH].
Qed.

Lemma find_one_update_same name delta c u :
  find_one name c = Some u →
  find_one name (update_one_inc_balance name delta c) = Some (User.inc_balance delta u).
Proof.
  induction c as [|v c IH]; simpl; [done|].
  case_decide as Hv; simpl.
  - intros [= ->]. by rewrite decide_True.
  - intros. rewrite decide_False by done. auto.
Qed.

Lemma find_one_update_other name name' delta c :
  name ≠ name' →
  find_one name' (update_one_inc_balance name delta c) = find_one name' c.
Proof.
  intros Hne. induction c as [|v c IH]; simpl; [done|].
  case_decide as Hv; simpl.
  - rewrite !decide_False by congruence. done.
  - case_decide; [done | apply IH].
Qed.

(** The update rewrites one document, the first with the username. *)
Lemma update_one_inc_balance_split name delta c u :
  find_one name c = Some u →
  ∃ l1 l2,
    c = l1 ++ u :: l2
    ∧ Forall (λ v, User.username v ≠ name) l1
    ∧ update_one_inc_balance name delta c = l1 ++ User.inc_balance delta u :: l2.
Proof.
  induction c as [|v c IH]; simpl; [done|].
  case_decide as Hv.
  - intros [= ->]. by exists [], c.
  - intros Hf. destruct (IH Hf) as (l1 & l2 & -> & Hl1 & ->).
    exists (v :: l1), l2. split_and!; [done | by constructor | done].
Qed.

(** ** What each handler does, case by case *)

Lemma register_existing db body now u :
  find_one (RegisterBody.username body) (user db) = Some u →
  register body now db = (inr (mkRegisterResponse true (Some "User exists")), db).
Proof. intros Hf. unfold register, mbind, M_bind, get_db. by rewrite Hf. Qed.

Lemma register_new db body now :
  find_one (RegisterBody.username body) (user db) = None →
  register body now db =
  (inr (mkRegisterResponse true None),
   insert_one c_user
     (User.mk (RegisterBody.username body) (RegisterBody.ton_address body)
              (RegisterBody.referred_by body) false 0 now) db).
Proof. intros Hf. unfold register, mbind, M_bind, get_db. by rewrite Hf. Qed.

Lemma handler_not_found {A} (k : User.t → M A) db name :
  find_one name (user db) = None →
  (ensure_user name ≫= k) db = (inl NotFound, db).
Proof.
  intros Hf. unfold ensure_user, mbind, M_bind, get_db. by rewrite Hf.
Qed.

Lemma handler_found {A} (k : User.t → M A) db name u :
  find_one name (user db) = Some u →
  (ensure_user name ≫= k) db = k u db.
Proof.
  intros Hf. unfold ensure_user, mbind, M_bind, get_db. by rewrite Hf.
Qed.

Lemma start_session_found db body now u :
  find_one (StartSessionBody.username body) (user db) = Some u →
  start_session body now db =
  if User.is_banned u then (inl Forbidden, db)
  else (inr true,
        insert_one c_gamesession
          (Gamesession.mk (StartSessionBody.username body)
                          (StartSessionBody.game body) 0 0 now) db).
Proof.
  intros Hf. unfold start_session. rewrite (handler_found _ _ _ _ Hf).
  by destruct (User.is_banned u).
Qed.

Lemma submit_score_banned db body now u :
  find_one (SubmitScoreBody.username body) (user db) = Some u →
  User.is_banned u = true →
  submit_score body now db = (inl Forbidden, db).
Proof.
  intros Hf Hb. unfold submit_score. rewrite (handler_found _ _ _ _ Hf).
  by rewrite Hb.
Qed.

Lemma submit_score_ok db body now u :
  find_one (SubmitScoreBody.username body) (user db) = Some u →
  User.is_banned u = false →
  let pts := points_for (SubmitScoreBody.game body) (SubmitScoreBody.score body) in
  submit_score body now db =
  (inr (mkSubmitScoreResponse true pts),
   update_one (SubmitScoreBody.username body) pts
     (insert_one c_reward
        (Reward.mk (SubmitScoreBody.username body) (SubmitScoreBody.game body)
                   (SubmitScoreBody.score body) pts "session_completed" now) db)).
Proof.
  intros Hf Hb. unfold submit_score. rewrite (handler_found _ _ _ _ Hf).
  by rewrite Hb.
Qed.

Lemma request_withdrawal_invalid db body now u :
  find_one (WithdrawalBody.username body) (user db) = Some u →
  WithdrawalBody.points body ≤ 0 ∨ WithdrawalBody.points body > User.balance u →
  request_withdrawal body now db = (inl InvalidAmount, db).
Proof.
  intros Hf Hp. unfold request_withdrawal. rewrite (handler_found _ _ _ _ Hf).
  by rewrite decide_True.
Qed.

Lemma request_withdrawal_ok db body now u :
  find_one (WithdrawalBody.username body) (user db) = Some u →
  0 < WithdrawalBody.points body ≤ User.balance u →
  request_withdrawal body now db =
  (inr (mkWithdrawalResponse true pending),
   update_one (WithdrawalBody.username body) (- WithdrawalBody.points body)
     (insert_one c_withdrawalrequest
        (Withdrawalrequest.mk (WithdrawalBody.username body)
                              (WithdrawalBody.ton_address body)
                              (WithdrawalBody.points body) pending now) db)).
Proof.
  intros Hf Hp. unfold request_withdrawal. rewrite (handler_found _ _ _ _ Hf).
  by rewrite decide_False by lia.
Qed.

Lemma leaderboard_db limit db : (leaderboard limit db).2 = db.
Proof.
  unfold leaderboard, mbind, M_bind, get_db.
  by destruct (aggregate limit (reward db)).
Qed.

(** ** Withdrawal requests that are refused *)

(** C3: for an existing user, a request for [points ≤ 0] or for more
    than the current balance raises InvalidAmount (HTTP 400) and leaves
    the whole database as it was: no withdrawal record, no balance
    change. *)
Theorem request_withdrawal_invalid_amount db body now u :
  find_one (WithdrawalBody.username body) (user db) = Some u →
  WithdrawalBody.points body ≤ 0 ∨ WithdrawalBody.points body > User.balance u →
  let (result, db') := request_withdrawal body now db in
  result = inl InvalidAmount
  ∧ InvalidAmount = HTTPException 400 "Invalid amount"
  ∧ withdrawalrequest db' = withdrawalrequest db
  ∧ find_one (WithdrawalBody.username body) (user db') = Some u
  ∧ db' = db.
Proof.
  intros Hf Hp. rewrite (request_withdrawal_invalid _ _ _ _ Hf Hp). done.
Qed.

Lemma request_withdrawal_invalid_amount_witness :
  let (result, db') :=
    request_withdrawal (WithdrawalBody.mk "alice" "EQalice" 71) 9 db_alice_bob in
  result = inl InvalidAmount
  ∧ InvalidAmount = HTTPException 400 "Invalid amount"
  ∧ withdrawalrequest db' = withdrawalrequest db_alice_bob
  ∧ find_one "alice" (user db') = Some alice
  ∧ db' = db_alice_bob.
Proof.
  apply (request_withdrawal_invalid_amount
           db_alice_bob (WithdrawalBody.mk "alice" "EQalice" 71) 9 alice).
  - reflexivity.
  - right. simpl. lia.
Defined.

(** ** Withdrawal by a banned user *)

(** C4: [request_withdrawal] never looks at [is_banned].  For the banned
    user [mallory] with balance 50 a request for 10 points does not
    raise Forbidden: it succeeds with status pending, stores a
    withdrawal record and takes the 10 points off the balance, whereas
    [submit_score] and [start_session] refuse the same user. *)
Theorem request_withdrawal_ignores_ban :
  User.is_banned mallory = true
  ∧ request_withdrawal (WithdrawalBody.mk "mallory" "EQmallory" 10) 8 db_mallory
    = (inr (mkWithdrawalResponse true pending),
       mkDatabase [User.inc_balance (-10) mallory] [] []
                  [Withdrawalrequest.mk "mallory" "EQmallory" 10 pending 8])
  ∧ User.balance (User.inc_balance (-10) mallory) = 40
  ∧ submit_score (SubmitScoreBody.mk "mallory" "word" 999 30) 8 db_mallory
    = (inl Forbidden, db_mallory)
  ∧ start_session (StartSessionBody.mk "mallory" "word") 8 db_mallory
    = (inl Forbidden, db_mallory).
Proof. by vm_compute. Qed.

(** No request makes [request_withdrawal] raise Forbidden. *)
Lemma request_withdrawal_never_forbidden db body now :
  (request_withdrawal body now db).1 ≠ inl Forbidden.
Proof.
  destruct (find_one (WithdrawalBody.username body) (user db)) as [u|] eqn:Hf.
  - unfold request_withdrawal. rewrite (handler_found _ _ _ _ Hf).
    case_decide; simpl; discriminate.
  - unfold request_withdrawal. rewrite (handler_not_found _ _ _ Hf).
    simpl. discriminate.
Qed.

(** ** Score submission *)

(** C5: for an existing user who is not banned, [submit_score] returns
    the award [points_for game score], appends exactly one reward record
    carrying that award and the reason "session_completed", and raises
    the user's balance by exactly the award.  A score of 999 in game
    "word" gives 99. *)
Theorem submit_score_credits db body now u :
  find_one (SubmitScoreBody.username body) (user db) = Some u →
  User.is_banned u = false →
  let pts := points_for (SubmitScoreBody.game body) (SubmitScoreBody.score body) in
  let (result, db') := submit_score body now db in
  result = inr (mkSubmitScoreResponse true pts)
  ∧ (∃ r, reward db' = reward db ++ [r]
          ∧ Reward.username r = SubmitScoreBody.username body
          ∧ Reward.points_awarded r = pts
          ∧ Reward.reason r = "session_completed")
  ∧ (∃ u', find_one (SubmitScoreBody.username body) (user db') = Some u'
           ∧ User.balance u' = User.balance u + pts)
  ∧ (SubmitScoreBody.game body = "word" → SubmitScoreBody.score body = 999 →
     pts = 99).
Proof.
  intros Hf Hb pts. rewrite (submit_score_ok _ _ _ _ Hf Hb). fold pts.
  split_and!.
  - done.
  - eexists. simpl. split_and!; done.
  - exists (User.inc_balance pts u). simpl. split; [|done].
    by apply find_one_update_same.
  - subst pts. intros -> ->. by vm_compute.
Qed.

Lemma submit_score_credits_witness :
  let (result, db') :=
    submit_score (SubmitScoreBody.mk "alice" "word" 999 42) 9 db_alice_bob in
  result = inr (mkSubmitScoreResponse true 99)
  ∧ (∃ r, reward db' = reward db_alice_bob ++ [r]
          ∧ Reward.username r = "alice"
          ∧ Reward.points_awarded r = 99
          ∧ Reward.reason r = "session_completed")
  ∧ (∃ u', find_one "alice" (user db') = Some u'
           ∧ User.balance u' = 70 + 99)
  ∧ ("word" = "word" → 999 = 999 → 99 = 99).
Proof.
  apply (submit_score_credits
           db_alice_bob (SubmitScoreBody.mk "alice" "word" 999 42) 9 alice).
  - reflexivity.
  - reflexivity.
Defined.

(** C9: the award lies between 0 and 100 for every game identifier and
    every integer score, negative ones included; a negative score
    submitted for an existing user who is not banned succeeds and awards
    exactly 0 points. *)
Theorem points_for_bounds_negative_score_awards_zero :
  (∀ game score, 0 ≤ points_for game score ≤ 100)
  ∧ (∀ db body now u,
       find_one (SubmitScoreBody.username body) (user db) = Some u →
       User.is_banned u = false →
       SubmitScoreBody.score body < 0 →
       let (result, db') := submit_score body now db in
       result = inr (mkSubmitScoreResponse true 0)
       ∧ ∃ u', find_one (SubmitScoreBody.username body) (user db') = Some u'
               ∧ User.balance u' = User.balance u).
Proof.
  split; [apply points_for_range|].
  intros db body now u Hf Hb Hneg.
  rewrite (submit_score_ok _ _ _ _ Hf Hb).
  assert (points_for (SubmitScoreBody.game body) (SubmitScoreBody.score body) = 0)
    as ->.
  { rewrite points_for_eq.
    assert (SubmitScoreBody.score body `div` 10 < 0) by (apply Z.div_lt_upper_bound; lia).
    lia. }
  split; [done|].
  exists (User.inc_balance 0 u). simpl. split; [|lia].
  by apply find_one_update_same.
Qed.

Lemma points_for_bounds_negative_score_awards_zero_witness :
  0 ≤ points_for "parking" (-7) ≤ 100
  ∧ let (result, db') :=
      submit_score (SubmitScoreBody.mk "bob" "parking" (-7) 3) 9 db_alice_bob in
    result = inr (mkSubmitScoreResponse true 0)
    ∧ ∃ u', find_one "bob" (user db') = Some u' ∧ User.balance u' = 30.
Proof.
  destruct points_for_bounds_negative_score_awards_zero as [Hrange Hneg].
  split; [apply Hrange|].
  apply (Hneg db_alice_bob (SubmitScoreBody.mk "bob" "parking" (-7) 3) 9 bob).
  - reflexivity.
  - reflexivity.
  - simpl. lia.
Defined.

(** ** Registration *)

Lemma register_then_found db body now :
  is_Some (find_one (RegisterBody.username body) (user (register body now db).2)).
Proof.
  destruct (find_one (RegisterBody.username body) (user db)) as [u|] eqn:Hf.
  - rewrite (register_existing _ _ _ _ Hf). simpl. by rewrite Hf.
  - rewrite (register_new _ _ _ Hf). simpl.
    rewrite find_one_snoc, Hf. simpl. by rewrite decide_True.
Qed.

(** C7: registering a username twice succeeds both times, and the second
    call, whatever its wallet address, referrer and time, leaves the
    database, hence the stored user record, as the first call left
    it. *)
Theorem register_idempotent db body body' now now' :
  RegisterBody.username body' = RegisterBody.username body →
  let (result1, db1) := register body now db in
  let (result2, db2) := register body' now' db1 in
  (∃ r1, result1 = inr r1 ∧ register_ok r1 = true)
  ∧ result2 = inr (mkRegisterResponse true (Some "User exists"))
  ∧ db2 = db1
  ∧ is_Some (find_one (RegisterBody.username body) (user db1))
  ∧ find_one (RegisterBody.username body) (user db2)
    = find_one (RegisterBody.username body) (user db1).
Proof.
  intros Hname.
  pose proof (register_then_found db body now) as [u Hu].
  destruct (register body now db) as [result1 db1] eqn:H1. simpl in Hu.
  rewrite <- Hname in Hu.
  rewrite (register_existing _ _ _ _ Hu). rewrite Hname in Hu.
  split_and!; try done.
  destruct (find_one (RegisterBody.username body) (user db)) as [v|] eqn:Hf.
  - rewrite (register_existing _ _ _ _ Hf) in H1. injection H1 as <- <-. by eexists.
  - rewrite (register_new _ _ _ Hf) in H1. injection H1 as <- <-. by eexists.
Qed.

Lemma register_idempotent_witness :
  let (result1, db1) :=
    register (RegisterBody.mk "carol" (Some "EQcarol") None) 10 db_alice_bob in
  let (result2, db2) :=
    register (RegisterBody.mk "carol" None (Some "bob")) 11 db1 in
  (∃ r1, result1 = inr r1 ∧ register_ok r1 = true)
  ∧ result2 = inr (mkRegisterResponse true (Some "User exists"))
  ∧ db2 = db1
  ∧ is_Some (find_one "carol" (user db1))
  ∧ find_one "carol" (user db2) = find_one "carol" (user db1).
Proof.
  apply (register_idempotent db_alice_bob
           (RegisterBody.mk "carol" (Some "EQcarol") None)
           (RegisterBody.mk "carol" None (Some "bob")) 10 11).
  reflexivity.
Defined.

(** ** Every request has one of the five effects *)

Lemma handle_effect db rq : effect db (handle db rq).
Proof.
  destruct rq as [body now|body now|body now|body now|limit]; simpl.
  - destruct (find_one (RegisterBody.username body) (user db)) as [u|] eqn:Hf.
    + rewrite (register_existing _ _ _ _ Hf). constructor.
    + rewrite (register_new _ _ _ Hf). by constructor.
  - destruct (find_one (StartSessionBody.username body) (user db)) as [u|] eqn:Hf.
    + rewrite (start_session_found _ _ _ _ Hf).
      destruct (User.is_banned u); constructor.
    + unfold start_session. rewrite (handler_not_found _ _ _ Hf). constructor.
  - destruct (find_one (SubmitScoreBody.username body) (user db)) as [u|] eqn:Hf.
    + destruct (User.is_banned u) eqn:Hb.
      * rewrite (submit_score_banned _ _ _ _ Hf Hb). constructor.
      * rewrite (submit_score_ok _ _ _ _ Hf Hb). by econstructor.
    + unfold submit_score. rewrite (handler_not_found _ _ _ Hf). constructor.
  - destruct (find_one (WithdrawalBody.username body) (user db)) as [u|] eqn:Hf.
    + destruct (decide (WithdrawalBody.points body ≤ 0
                        ∨ WithdrawalBody.points body > User.balance u)) as [Hp|Hp].
      * rewrite (request_withdrawal_invalid _ _ _ _ Hf Hp). constructor.
      * assert (0 < WithdrawalBody.points body ≤ User.balance u) as Hp' by lia.
        rewrite (request_withdrawal_ok _ _ _ _ Hf Hp'). by econstructor.
    + unfold request_withdrawal. rewrite (handler_not_found _ _ _ Hf). constructor.
  - rewrite leaderboard_db. constructor.
Qed.

Lemma run_invariant (P : Database → Prop) :
  (∀ db db', effect db db' → P db → P db') →
  ∀ rqs db, P db → P (run rqs db).
Proof.
  intros Hstep rqs. unfold run.
  induction rqs as [|rq rqs IH]; intros db HP; simpl; [done|].
  apply IH. eapply Hstep; [apply handle_effect | done].
Qed.

(** ** Balances never go below zero *)

Lemma update_one_inc_balance_nonneg name delta c :
  Forall (λ u, 0 ≤ User.balance u) c →
  (∀ u, find_one name c = Some u → 0 ≤ User.balance u + delta) →
  Forall (λ u, 0 ≤ User.balance u) (update_one_inc_balance name delta c).
Proof.
  induction c as [|v c IH]; simpl; [done|].
  intros [Hv Hc]%Forall_cons Hdelta. case_decide.
  - constructor; [|done]. simpl. by apply Hdelta.
  - constructor; [done|]. by apply IH.
Qed.

Lemma effect_balances_nonneg db db' :
  effect db db' → balances_nonneg db → balances_nonneg db'.
Proof.
  unfold balances_nonneg.
  intros [|body now Hf|sess|body now u Hf Hb|body now u Hf Hp] Hnn; simpl; try done.
  - apply Forall_app. split; [done|]. by repeat constructor.
  - apply update_one_inc_balance_nonneg; [done|].
    intros v Hv. rewrite Hf in Hv. injection Hv as <-.
    pose proof (points_for_range (SubmitScoreBody.game body) (SubmitScoreBody.score body)).
    rewrite Forall_forall in Hnn. specialize (Hnn u (find_one_elem_of _ _ _ Hf)).
    simpl in Hnn. lia.
  - apply update_one_inc_balance_nonneg; [done|].
    intros v Hv. rewrite Hf in Hv. injection Hv as <-. lia.
Qed.

(** C2: in a database built from nothing by any sequence of requests run
    one after the other (every user in it was created by [register],
    with balance 0), every stored balance is at least 0. *)
Theorem balance_never_negative (rqs : list request) (u : User.t) :
  u ∈ user (run rqs empty_db) → 0 ≤ User.balance u.
Proof.
  revert u. apply Forall_forall.
  apply (run_invariant balances_nonneg effect_balances_nonneg).
  constructor.
Qed.

Lemma balance_never_negative_witness :
  0 ≤ User.balance (User.mk "alice" None None false 59 1).
Proof.
  apply (balance_never_negative alice_session).
  vm_compute. constructor.
Defined.

(** ** The balance is what the ledger adds up to *)

Lemma sum_points_awarded_snoc name rs r :
  sum_points_awarded name (rs ++ [r]) =
  sum_points_awarded name rs
  + (if decide (Reward.username r = name) then Reward.points_awarded r else 0).
Proof. induction rs as [|r' rs IH]; simpl; [lia | rewrite IH; lia]. Qed.

Lemma sum_withdrawn_snoc name ws w :
  sum_withdrawn name (ws ++ [w]) =
  sum_withdrawn name ws
  + (if decide (Withdrawalrequest.username w = name
                ∧ Withdrawalrequest.status w ≠ rejected)
     then Withdrawalrequest.points w else 0).
Proof. induction ws as [|w' ws IH]; simpl; [lia | rewrite IH; lia]. Qed.

Lemma sum_points_awarded_absent name rs :
  Forall (λ r, Reward.username r ≠ name) rs → sum_points_awarded name rs = 0.
Proof.
  induction 1 as [|r rs Hr _ IH]; simpl; [done|].
  by rewrite decide_False, IH.
Qed.

Lemma sum_withdrawn_absent name ws :
  Forall (λ w, Withdrawalrequest.username w ≠ name) ws → sum_withdrawn name ws = 0.
Proof.
  induction 1 as [|w ws Hw _ IH]; simpl; [done|].
  rewrite decide_False, IH; [done | by intros [? _]].
Qed.

(** With unique usernames the update touches the one document of the
    user; every other document keeps its place and has another name. *)
Lemma update_one_inc_balance_unique name delta c u :
  NoDup (User.username <$> c) →
  find_one name c = Some u →
  ∃ l1 l2,
    c = l1 ++ u :: l2
    ∧ update_one_inc_balance name delta c = l1 ++ User.inc_balance delta u :: l2
    ∧ Forall (λ v, User.username v ≠ name) (l1 ++ l2).
Proof.
  intros Hnd Hf.
  destruct (update_one_inc_balance_split name delta c u Hf) as (l1 & l2 & -> & Hl1 & Hupd).
  exists l1, l2. split_and!; [done..|].
  apply Forall_app. split; [done|].
  rewrite fmap_app, fmap_cons, (find_one_username _ _ _ Hf) in Hnd.
  apply NoDup_app in Hnd as (_ & _ & [Hnotin _]%NoDup_cons).
  apply Forall_forall. intros v Hv Heq. apply Hnotin.
  rewrite <- Heq. by apply list_elem_of_fmap_2.
Qed.

Lemma effect_ledger_inv db db' : effect db db' → ledger_inv db → ledger_inv db'.
Proof.
  intros [|body now Hf|sess|body now u Hf Hb|body now u Hf Hp] [Hnd Hr Hw Hbal];
    [done| | | |].
  - (* a new user: no ledger record names it yet *)
    apply find_one_None in Hf.
    constructor; simpl; rewrite ?fmap_app; simpl.
    + apply NoDup_app. split_and!; [done| |apply NoDup_singleton].
      intros x Hx ->%list_elem_of_singleton. done.
    + eapply Forall_impl; [exact Hr|]. intros r ?. apply elem_of_app. by left.
    + eapply Forall_impl; [exact Hw|]. intros w ?. apply elem_of_app. by left.
    + apply Forall_app. split; [done|].
      constructor; [|done]. simpl.
      rewrite sum_points_awarded_absent, sum_withdrawn_absent; [done|..].
      * eapply Forall_impl; [exact Hw|]. intros w ? Heq. apply Hf. by rewrite <- Heq.
      * eapply Forall_impl; [exact Hr|]. intros r ? Heq. apply Hf. by rewrite <- Heq.
  - by constructor.
  - (* a credit: one reward record and the same amount on the balance *)
    set (name := SubmitScoreBody.username body) in *.
    set (pts := points_for _ _).
    destruct (update_one_inc_balance_unique name pts _ u Hnd Hf)
      as (l1 & l2 & Huser & Hupd & Hother).
    constructor; simpl; rewrite ?update_one_inc_balance_names; [done| |done|].
    + apply Forall_app. split; [done|]. constructor; [|done]. simpl.
      rewrite <- (find_one_username _ _ _ Hf).
      apply list_elem_of_fmap_2. by eapply find_one_elem_of.
    + rewrite Hupd. rewrite Huser in Hbal.
      apply Forall_app in Hbal as [Hbal1 [Hbalu Hbal2]%Forall_cons].
      apply Forall_app in Hother as [Ho1 Ho2].
      assert (∀ l : list User.t,
                Forall (λ v, User.username v ≠ name) l →
                Forall (λ v, User.balance v
                   = sum_points_awarded (User.username v) (reward db)
                     - sum_withdrawn (User.username v) (withdrawalrequest db)) l →
                Forall (λ v, User.balance v
                   = sum_points_awarded (User.username v)
                       (reward db ++ [Reward.mk name (SubmitScoreBody.game body)
                          (SubmitScoreBody.score body) pts "session_completed" now])
                     - sum_withdrawn (User.username v) (withdrawalrequest db)) l)
        as Hkeep.
      { intros l Hne Hl. rewrite Forall_forall in Hne, Hl. apply Forall_forall.
        intros v Hv. rewrite sum_points_awarded_snoc. simpl.
        rewrite decide_False by (intros Heq; by apply (Hne v Hv)).
        rewrite (Hl v Hv). lia. }
      apply Forall_app. split; [by apply Hkeep|].
      constructor; [|by apply Hkeep].
      simpl. rewrite sum_points_awarded_snoc. simpl.
      rewrite decide_True by (symmetry; by eapply find_one_username). lia.
  - (* a debit: one pending withdrawal record and the amount off the balance *)
    set (name := WithdrawalBody.username body) in *.
    set (pts := WithdrawalBody.points body) in *.
    destruct (update_one_inc_balance_unique name (- pts) _ u Hnd Hf)
      as (l1 & l2 & Huser & Hupd & Hother).
    constructor; simpl; rewrite ?update_one_inc_balance_names; [done|done| |].
    + apply Forall_app. split; [done|]. constructor; [|done]. simpl.
      rewrite <- (find_one_username _ _ _ Hf).
      apply list_elem_of_fmap_2. by eapply find_one_elem_of.
    + rewrite Hupd. rewrite Huser in Hbal.
      apply Forall_app in Hbal as [Hbal1 [Hbalu Hbal2]%Forall_cons].
      apply Forall_app in Hother as [Ho1 Ho2].
      assert (∀ l : list User.t,
                Forall (λ v, User.username v ≠ name) l →
                Forall (λ v, User.balance v
                   = sum_points_awarded (User.username v) (reward db)
                     - sum_withdrawn (User.username v) (withdrawalrequest db)) l →
                Forall (λ v, User.balance v
                   = sum_points_awarded (User.username v) (reward db)
                     - sum_withdrawn (User.username v)
                         (withdrawalrequest db
                          ++ [Withdrawalrequest.mk name (WithdrawalBody.ton_address body)
                                pts pending now])) l)
        as Hkeep.
      { intros l Hne Hl. rewrite Forall_forall in Hne, Hl. apply Forall_forall.
        intros v Hv. rewrite sum_withdrawn_snoc. simpl.
        rewrite decide_False by (intros [Heq _]; by apply (Hne v Hv)).
        rewrite (Hl v Hv). lia. }
      apply Forall_app. split; [by apply Hkeep|].
      constructor; [|by apply Hkeep].
      simpl. rewrite sum_withdrawn_snoc. simpl.
      rewrite decide_True by (split; [symmetry; by eapply find_one_username | done]).
      lia.
Qed.

Lemma ledger_inv_empty : ledger_inv empty_db.
Proof. constructor; simpl; constructor. Qed.

(** C6: in every database reached from the empty one by requests run
    one after the other, each stored balance equals the sum of
    [points_awarded] over the user's reward records minus the sum of
    [points] over the user's withdrawal requests that are not
    rejected. *)
Theorem balance_equals_ledger (rqs : list request) (u : User.t) :
  let db := run rqs empty_db in
  u ∈ user db →
  User.balance u
  = sum_points_awarded (User.username u) (reward db)
    - sum_withdrawn (User.username u) (withdrawalrequest db).
Proof.
  intros db. revert u. apply Forall_forall.
  apply (inv_balance db).
  apply (run_invariant ledger_inv effect_ledger_inv). apply ledger_inv_empty.
Qed.

Lemma balance_equals_ledger_witness :
  let db := run alice_session empty_db in
  User.balance (User.mk "alice" None None false 59 1)
  = sum_points_awarded "alice" (reward db) - sum_withdrawn "alice" (withdrawalrequest db).
Proof.
  apply (balance_equals_ledger alice_session (User.mk "alice" None None false 59 1)).
  vm_compute. constructor.
Defined.

(** ** What a successful balance-changing request leaves alone *)

Lemma submit_score_success db body now resp db' :
  submit_score body now db = (inr resp, db') →
  ∃ u, find_one (SubmitScoreBody.username body) (user db) = Some u
       ∧ User.is_banned u = false.
Proof.
  intros Hrun.
  destruct (find_one (SubmitScoreBody.username body) (user db)) as [u|] eqn:Hf.
  - destruct (User.is_banned u) eqn:Hb; [|by exists u].
    by rewrite (submit_score_banned _ _ _ _ Hf Hb) in Hrun.
  - unfold submit_score in Hrun. by rewrite (handler_not_found _ _ _ Hf) in Hrun.
Qed.

Lemma request_withdrawal_success db body now resp db' :
  request_withdrawal body now db = (inr resp, db') →
  ∃ u, find_one (WithdrawalBody.username body) (user db) = Some u
       ∧ 0 < WithdrawalBody.points body ≤ User.balance u.
Proof.
  intros Hrun.
  destruct (find_one (WithdrawalBody.username body) (user db)) as [u|] eqn:Hf.
  - destruct (decide (WithdrawalBody.points body ≤ 0
                      ∨ WithdrawalBody.points body > User.balance u)) as [Hp|Hp].
    + by rewrite (request_withdrawal_invalid _ _ _ _ Hf Hp) in Hrun.
    + exists u. split; [done | lia].
  - unfold request_withdrawal in Hrun.
    by rewrite (handler_not_found _ _ _ Hf) in Hrun.
Qed.

Lemma update_one_only_balance name delta db u :
  find_one name (user db) = Some u →
  only_balance_changed name db (update_one name delta db).
Proof.
  intros Hf.
  destruct (update_one_inc_balance_split name delta _ u Hf) as (l1 & l2 & Hc & Hl1 & Hupd).
  exists l1, u, (User.inc_balance delta u), l2. simpl.
  split_and!; try done. by eapply find_one_username.
Qed.

(** C10: a successful [submit_score] or [request_withdrawal] changes, in
    the user collection, only the balance of the named user's document:
    its other fields and every other user document stay as they were.
    The reward and withdrawal records stored before are all still
    there, unchanged, the one new record coming after them. *)
Theorem balance_update_frame :
  (∀ db body now resp db',
     submit_score body now db = (inr resp, db') →
     only_balance_changed (SubmitScoreBody.username body) db db'
     ∧ (∃ r, reward db' = reward db ++ [r])
     ∧ withdrawalrequest db' = withdrawalrequest db)
  ∧ (∀ db body now resp db',
       request_withdrawal body now db = (inr resp, db') →
       only_balance_changed (WithdrawalBody.username body) db db'
       ∧ reward db' = reward db
       ∧ (∃ w, withdrawalrequest db' = withdrawalrequest db ++ [w])).
Proof.
  split; intros db body now resp db' Hrun.
  - destruct (submit_score_success _ _ _ _ _ Hrun) as (u & Hf & Hb).
    rewrite (submit_score_ok _ _ _ _ Hf Hb) in Hrun. injection Hrun as _ <-.
    split_and!; [|by eexists|done].
    by apply (update_one_only_balance _ _ (insert_one c_reward _ db) u).
  - destruct (request_withdrawal_success _ _ _ _ _ Hrun) as (u & Hf & Hp).
    rewrite (request_withdrawal_ok _ _ _ _ Hf Hp) in Hrun. injection Hrun as _ <-.
    split_and!; [|done|by eexists].
    by apply (update_one_only_balance _ _ (insert_one c_withdrawalrequest _ db) u).
Qed.

Lemma balance_update_frame_witness :
  (only_balance_changed "bob" db_alice_bob
     (submit_score (SubmitScoreBody.mk "bob" "tiles" 250 60) 9 db_alice_bob).2
   ∧ (∃ r, reward (submit_score (SubmitScoreBody.mk "bob" "tiles" 250 60) 9 db_alice_bob).2
           = reward db_alice_bob ++ [r])
   ∧ withdrawalrequest (submit_score (SubmitScoreBody.mk "bob" "tiles" 250 60) 9 db_alice_bob).2
     = withdrawalrequest db_alice_bob)
  ∧ (only_balance_changed "bob" db_alice_bob
       (request_withdrawal (WithdrawalBody.mk "bob" "EQbob" 30) 9 db_alice_bob).2
     ∧ reward (request_withdrawal (WithdrawalBody.mk "bob" "EQbob" 30) 9 db_alice_bob).2
       = reward db_alice_bob
     ∧ (∃ w, withdrawalrequest
               (request_withdrawal (WithdrawalBody.mk "bob" "EQbob" 30) 9 db_alice_bob).2
             = withdrawalrequest db_alice_bob ++ [w])).
Proof.
  destruct balance_update_frame as [Hsubmit Hwithdraw].
  split.
  - apply (Hsubmit db_alice_bob (SubmitScoreBody.mk "bob" "tiles" 250 60) 9
             (mkSubmitScoreResponse true 25)).
    reflexivity.
  - apply (Hwithdraw db_alice_bob (WithdrawalBody.mk "bob" "EQbob" 30) 9
             (mkWithdrawalResponse true pending)).
    reflexivity.
Defined.

(** ** The leaderboard *)

Lemma sum_points_awarded_not_elem name rs :
  name ∉ Reward.username <$> rs → sum_points_awarded name rs = 0.
Proof.
  intros Hn. apply sum_points_awarded_absent, Forall_forall.
  intros r Hr Heq. apply Hn. rewrite <- Heq. by apply list_elem_of_fmap_2.
Qed.

(** The group stage holds, for each username among the rewards, the sum
    of its awards, and nothing else. *)
Lemma group_totals_lookup name rs :
  group_totals rs !! name =
  if decide (name ∈ Reward.username <$> rs)
  then Some (sum_points_awarded name rs) else None.
Proof.
  induction rs as [|r rs IH]; csimpl.
  - by rewrite lookup_empty.
  - destruct (decide (Reward.username r = name)) as [Heq|Hne].
    + rewrite Heq, lookup_insert_eq, IH.
      destruct (decide (name ∈ name :: _)) as [_|Hn]; [|by destruct Hn; left].
      case_decide as Hin; simpl; f_equal; [lia|].
      rewrite (sum_points_awarded_not_elem _ _ Hin). lia.
    + rewrite lookup_insert_ne by done. rewrite IH.
      destruct (decide (name ∈ Reward.username <$> rs)) as [Hin|Hin].
      * rewrite decide_True by (by right). done.
      * rewrite decide_False; [done|].
        intros [?|?]%elem_of_cons; [congruence | done].
Qed.

Lemma group_stage_elem_of name t rs :
  (name, t) ∈ group_stage rs
  ↔ name ∈ Reward.username <$> rs ∧ t = sum_points_awarded name rs.
Proof.
  unfold group_stage. rewrite elem_of_map_to_list, group_totals_lookup.
  case_decide; split; try done.
  - by intros [= <-].
  - by intros [_ ->].
  - by intros [? _].
Qed.

#[global] Instance total_desc_trans : Transitive total_desc.
Proof. unfold total_desc. intros a b c. lia. Qed.

#[global] Instance total_desc_total : Total total_desc.
Proof. unfold total_desc. intros a b. lia. Qed.

Lemma sort_stage_perm rows : sort_stage rows ≡ₚ rows.
Proof. apply merge_sort_Permutation. Qed.

Lemma sort_stage_sorted rows : StronglySorted total_desc (sort_stage rows).
Proof. apply StronglySorted_merge_sort; apply _. Qed.

Lemma response_rows (results : list (string * Z)) :
  (λ r, (r.1, r.2)) <$> results = results.
Proof. induction results as [|[] ? IH]; csimpl; [done | by rewrite IH]. Qed.

Lemma leaderboard_positive db limit :
  0 < limit →
  leaderboard limit db
  = (inr (take (Z.to_nat limit) (sort_stage (group_stage (reward db)))), db).
Proof.
  intros Hl. unfold leaderboard, aggregate, limit_stage, mbind, M_bind, get_db.
  rewrite decide_True by done. by rewrite response_rows.
Qed.

Lemma leaderboard_not_positive db limit :
  limit ≤ 0 →
  leaderboard limit db = (inl (OperationFailure "the limit must be positive"), db).
Proof.
  intros Hl. unfold leaderboard, aggregate, limit_stage, mbind, M_bind, get_db.
  by rewrite decide_False by lia.
Qed.

(** A sorted list cut after [n] rows: what is cut off is no larger than
    anything kept. *)
Lemma take_sorted_top (n : nat) (rows : list (string * Z)) row :
  StronglySorted total_desc rows →
  row ∈ rows →
  row ∈ take n rows
  ∨ (length (take n rows) = n ∧ ∀ kept, kept ∈ take n rows → row.2 ≤ kept.2).
Proof.
  intros Hsorted Hin.
  rewrite <- (take_drop n rows) in Hin, Hsorted.
  apply elem_of_app in Hin as [Hin|Hin]; [by left|right].
  split.
  - apply length_take_le. destruct (decide (n ≤ length rows)%nat); [done|].
    rewrite drop_ge in Hin by lia. by apply not_elem_of_nil in Hin.
  - intros kept Hkept.
    apply (StronglySorted_app_1_elem_of total_desc _ _ kept row Hsorted Hkept Hin).
Qed.

Lemma aggregate_top_totals rs (n : nat) :
  top_totals rs n (take n (sort_stage (group_stage rs))).
Proof.
  pose proof (sort_stage_perm (group_stage rs)) as Hperm.
  pose proof (sort_stage_sorted (group_stage rs)) as Hsorted.
  set (sorted := sort_stage (group_stage rs)) in *.
  assert (∀ row, row ∈ take n sorted → row ∈ sorted) as Htake.
  { intros row Hrow. rewrite <- (take_drop n sorted). apply elem_of_app. by left. }
  constructor.
  - rewrite fmap_take. eapply sublist_NoDup; [|apply sublist_take].
    rewrite Hperm. apply NoDup_fst_map_to_list.
  - intros name t Hin%Htake. rewrite Hperm in Hin.
    by apply group_stage_elem_of.
  - rewrite <- (take_drop n sorted) in Hsorted.
    by apply StronglySorted_app_1_l in Hsorted.
  - rewrite length_take. lia.
  - intros name Hname.
    apply (take_sorted_top n sorted (name, sum_points_awarded name rs) Hsorted).
    rewrite Hperm. by apply group_stage_elem_of.
Qed.

(** C8, for a positive limit: [leaderboard limit] returns, without
    changing the database, one row per username found among the reward
    records with the sum of that user's [points_awarded], in descending
    order of total, cut to at most [limit] rows, the rows cut off having
    totals no larger than those kept.  Over the rewards
    {A:50, B:30, A:20} and a limit of 2 or more it returns
    [(A,70), (B,30)]. *)
Theorem leaderboard_top_totals db limit :
  0 < limit →
  (∃ rows,
     leaderboard limit db = (inr rows, db)
     ∧ top_totals (reward db) (Z.to_nat limit) rows)
  ∧ (2 ≤ limit → reward db = rewards_A_B_A →
     leaderboard limit db = (inr [("A", 70); ("B", 30)], db)).
Proof.
  intros Hlimit. rewrite (leaderboard_positive _ _ Hlimit). split.
  - eexists. split; [done|]. apply aggregate_top_totals.
  - intros Hl ->.
    assert (sort_stage (group_stage rewards_A_B_A) = [("A", 70); ("B", 30)]) as ->
      by (by vm_compute).
    rewrite take_ge; [done|]. simpl. lia.
Qed.

Lemma leaderboard_top_totals_witness :
  (∃ rows,
     leaderboard 20 db_A_B_A = (inr rows, db_A_B_A)
     ∧ top_totals (reward db_A_B_A) (Z.to_nat 20) rows)
  ∧ (2 ≤ 20 → reward db_A_B_A = rewards_A_B_A →
     leaderboard 20 db_A_B_A = (inr [("A", 70); ("B", 30)], db_A_B_A)).
Proof. apply (leaderboard_top_totals db_A_B_A 20). lia. Defined.

(** C8 as stated, for every limit, fails: with a limit of 0 or of -1
    the aggregation is rejected and no rows come back. *)
Lemma leaderboard_rejects_limit_zero :
  (leaderboard 0 db_A_B_A).1 = inl (OperationFailure "the limit must be positive")
  ∧ (leaderboard (-1) db_A_B_A).1 = inl (OperationFailure "the limit must be positive")
  ∧ ¬ (∃ rows, (leaderboard 0 db_A_B_A).1 = inr rows)
  ∧ ¬ (∃ rows, (leaderboard (-1) db_A_B_A).1 = inr rows).
Proof.
  rewrite !leaderboard_not_positive by lia. simpl.
  split_and!; [done | done | by intros [? ?] | by intros [? ?]].
Qed.

(** * Further properties of the handlers *)

(** ** The award as a function of the score *)

Lemma div10_bounds (s : Z) : 10 * (s `div` 10) ≤ s < 10 * (s `div` 10) + 10.
Proof.
  pose proof (Z_div_mod_eq_full s 10). pose proof (Z.mod_pos_bound s 10). lia.
Qed.

(** X1: the award never decreases when the score grows, whatever the
    two game identifiers; it is 0 exactly for scores below 10 and
    reaches the cap of 100 exactly from a score of 1000 on. *)
Theorem points_for_monotone (game game' : string) (score score' : Z) :
  score ≤ score' →
  points_for game score ≤ points_for game' score'
  ∧ (points_for game score = 0 ↔ score < 10)
  ∧ (points_for game score = 100 ↔ 1000 ≤ score).
Proof.
  intros Hle. rewrite !points_for_eq.
  pose proof (div10_bounds score). pose proof (div10_bounds score').
  split_and!; [lia | split; lia | split; lia].
Qed.

Lemma points_for_monotone_witness :
  points_for "word" 995 ≤ points_for "chess" 1003
  ∧ (points_for "word" 995 = 0 ↔ 995 < 10)
  ∧ (points_for "word" 995 = 100 ↔ 1000 ≤ 995).
Proof. apply (points_for_monotone "word" "chess" 995 1003). lia. Defined.

(** ** Requests that are refused *)

(** X2: for a username that is not stored, [start_session],
    [submit_score] and [request_withdrawal] raise NotFound (HTTP 404)
    and leave the database as it was. *)
Theorem unknown_user_not_found db name sbody cbody wbody now :
  find_one name (user db) = None →
  StartSessionBody.username sbody = name →
  SubmitScoreBody.username cbody = name →
  WithdrawalBody.username wbody = name →
  start_session sbody now db = (inl (HTTPException 404 "User not found"), db)
  ∧ submit_score cbody now db = (inl (HTTPException 404 "User not found"), db)
  ∧ request_withdrawal wbody now db = (inl (HTTPException 404 "User not found"), db).
Proof.
  intros Hf Hs Hc Hw. rewrite <- Hs in Hf.
  split_and!.
  - unfold start_session. by apply handler_not_found.
  - unfold submit_score. apply handler_not_found. by rewrite Hc, <- Hs.
  - unfold request_withdrawal. apply handler_not_found. by rewrite Hw, <- Hs.
Qed.

Lemma unknown_user_not_found_witness :
  start_session (StartSessionBody.mk "dave" "word") 9 db_alice_bob
  = (inl (HTTPException 404 "User not found"), db_alice_bob)
  ∧ submit_score (SubmitScoreBody.mk "dave" "word" 120 30) 9 db_alice_bob
    = (inl (HTTPException 404 "User not found"), db_alice_bob)
  ∧ request_withdrawal (WithdrawalBody.mk "dave" "EQdave" 5) 9 db_alice_bob
    = (inl (HTTPException 404 "User not found"), db_alice_bob).
Proof.
  apply (unknown_user_not_found db_alice_bob "dave"); reflexivity.
Defined.

(** X3: for a stored user whose [is_banned] is set, [start_session] and
    [submit_score] raise Forbidden (HTTP 403): no session, no reward,
    no balance change. *)
Theorem banned_user_forbidden db name u sbody cbody now :
  find_one name (user db) = Some u →
  User.is_banned u = true →
  StartSessionBody.username sbody = name →
  SubmitScoreBody.username cbody = name →
  start_session sbody now db = (inl (HTTPException 403 "User banned"), db)
  ∧ submit_score cbody now db = (inl (HTTPException 403 "User banned"), db).
Proof.
  intros Hf Hb <- Hc. split.
  - by rewrite (start_session_found _ _ _ _ Hf), Hb.
  - rewrite <- Hc in Hf. by rewrite (submit_score_banned _ _ _ _ Hf Hb).
Qed.

Lemma banned_user_forbidden_witness :
  start_session (StartSessionBody.mk "mallory" "tiles") 9 db_mallory
  = (inl (HTTPException 403 "User banned"), db_mallory)
  ∧ submit_score (SubmitScoreBody.mk "mallory" "tiles" 10000 1) 9 db_mallory
    = (inl (HTTPException 403 "User banned"), db_mallory).
Proof.
  apply (banned_user_forbidden db_mallory "mallory" mallory); reflexivity.
Defined.

(** ** Requests that go through *)

(** X4: for a stored user who is not banned, [start_session] stores
    exactly one session, for the given username and game and with score
    0 and duration 0, and touches no user, reward or withdrawal
    record. *)
Theorem start_session_placeholder db body now u :
  find_one (StartSessionBody.username body) (user db) = Some u →
  User.is_banned u = false →
  let (result, db') := start_session body now db in
  result = inr true
  ∧ gamesession db'
    = gamesession db
      ++ [Gamesession.mk (StartSessionBody.username body)
                         (StartSessionBody.game body) 0 0 now]
  ∧ user db' = user db
  ∧ reward db' = reward db
  ∧ withdrawalrequest db' = withdrawalrequest db.
Proof.
  intros Hf Hb. by rewrite (start_session_found _ _ _ _ Hf), Hb.
Qed.

Lemma start_session_placeholder_witness :
  let (result, db') :=
    start_session (StartSessionBody.mk "alice" "sudoku") 9 db_alice_bob in
  result = inr true
  ∧ gamesession db' = gamesession db_alice_bob ++ [Gamesession.mk "alice" "sudoku" 0 0 9]
  ∧ user db' = user db_alice_bob
  ∧ reward db' = reward db_alice_bob
  ∧ withdrawalrequest db' = withdrawalrequest db_alice_bob.
Proof.
  apply (start_session_placeholder db_alice_bob
           (StartSessionBody.mk "alice" "sudoku") 9 alice); reflexivity.
Defined.

(** X5: registering a username that is not stored appends one user
    document with the fields of the body, balance 0 and not banned;
    looking the username up afterwards finds that document, every user
    found before is still found unchanged, and the other collections
    are untouched. *)
Theorem register_new_user db body now :
  find_one (RegisterBody.username body) (user db) = None →
  let doc := User.mk (RegisterBody.username body) (RegisterBody.ton_address body)
                     (RegisterBody.referred_by body) false 0 now in
  let (result, db') := register body now db in
  result = inr (mkRegisterResponse true None)
  ∧ user db' = user db ++ [doc]
  ∧ find_one (RegisterBody.username body) (user db') = Some doc
  ∧ (∀ other v, find_one other (user db) = Some v →
                find_one other (user db') = Some v)
  ∧ gamesession db' = gamesession db
  ∧ reward db' = reward db
  ∧ withdrawalrequest db' = withdrawalrequest db.
Proof.
  intros Hf doc. rewrite (register_new _ _ _ Hf). simpl. fold doc.
  split_and!; try done.
  - rewrite find_one_snoc, Hf. simpl. by rewrite decide_True.
  - intros other v Hv. by rewrite find_one_snoc, Hv.
Qed.

Lemma register_new_user_witness :
  let doc := User.mk "carol" (Some "EQcarol") (Some "nobody") false 0 12 in
  let (result, db') :=
    register (RegisterBody.mk "carol" (Some "EQcarol") (Some "nobody")) 12 db_alice_bob in
  result = inr (mkRegisterResponse true None)
  ∧ user db' = user db_alice_bob ++ [doc]
  ∧ find_one "carol" (user db') = Some doc
  ∧ (∀ other v, find_one other (user db_alice_bob) = Some v →
                find_one other (user db') = Some v)
  ∧ gamesession db' = gamesession db_alice_bob
  ∧ reward db' = reward db_alice_bob
  ∧ withdrawalrequest db' = withdrawalrequest db_alice_bob.
Proof.
  apply (register_new_user db_alice_bob
           (RegisterBody.mk "carol" (Some "EQcarol") (Some "nobody")) 12).
  reflexivity.
Defined.

(** X6: for a stored user, banned or not, a request for an amount
    between 1 and the balance returns status pending, stores exactly
    one pending withdrawal record with the username, address and amount
    of the body, and takes exactly that amount off the balance. *)
Theorem request_withdrawal_locks_points db body now u :
  find_one (WithdrawalBody.username body) (user db) = Some u →
  0 < WithdrawalBody.points body ≤ User.balance u →
  let (result, db') := request_withdrawal body now db in
  result = inr (mkWithdrawalResponse true pending)
  ∧ withdrawalrequest db'
    = withdrawalrequest db
      ++ [Withdrawalrequest.mk (WithdrawalBody.username body)
            (WithdrawalBody.ton_address body) (WithdrawalBody.points body) pending now]
  ∧ (∃ u', find_one (WithdrawalBody.username body) (user db') = Some u'
           ∧ User.balance u' = User.balance u - WithdrawalBody.points body
           ∧ 0 ≤ User.balance u')
  ∧ reward db' = reward db
  ∧ gamesession db' = gamesession db.
Proof.
  intros Hf Hp. rewrite (request_withdrawal_ok _ _ _ _ Hf Hp). simpl.
  split_and!; try done.
  exists (User.inc_balance (- WithdrawalBody.points body) u). simpl.
  split_and!; [|lia..]. by apply find_one_update_same.
Qed.

Lemma request_withdrawal_locks_points_witness :
  let (result, db') :=
    request_withdrawal (WithdrawalBody.mk "alice" "EQother" 70) 9 db_alice_bob in
  result = inr (mkWithdrawalResponse true pending)
  ∧ withdrawalrequest db'
    = withdrawalrequest db_alice_bob
      ++ [Withdrawalrequest.mk "alice" "EQother" 70 pending 9]
  ∧ (∃ u', find_one "alice" (user db') = Some u'
           ∧ User.balance u' = 70 - 70
           ∧ 0 ≤ User.balance u')
  ∧ reward db' = reward db_alice_bob
  ∧ gamesession db' = gamesession db_alice_bob.
Proof.
  apply (request_withdrawal_locks_points db_alice_bob
           (WithdrawalBody.mk "alice" "EQother" 70) 9 alice).
  - reflexivity.
  - simpl. lia.
Defined.

(** X7: no double spending in sequence.  Once a withdrawal of [p1]
    points has gone through, a second request by the same user for more
    than what is left of the balance raises InvalidAmount and writes
    nothing, even if the amount was within the balance before the
    first. *)
Theorem second_withdrawal_checked_against_rest db body1 body2 now1 now2 u :
  find_one (WithdrawalBody.username body1) (user db) = Some u →
  WithdrawalBody.username body2 = WithdrawalBody.username body1 →
  0 < WithdrawalBody.points body1 ≤ User.balance u →
  WithdrawalBody.points body2 > User.balance u - WithdrawalBody.points body1 →
  let db1 := (request_withdrawal body1 now1 db).2 in
  request_withdrawal body2 now2 db1 = (inl InvalidAmount, db1).
Proof.
  intros Hf Hname Hp1 Hp2 db1. subst db1.
  rewrite (request_withdrawal_ok _ _ _ _ Hf Hp1). simpl.
  apply (request_withdrawal_invalid _ _ _
           (User.inc_balance (- WithdrawalBody.points body1) u)).
  - rewrite Hname. simpl. by apply find_one_update_same.
  - right. simpl. lia.
Qed.

Lemma second_withdrawal_checked_against_rest_witness :
  let db1 :=
    (request_withdrawal (WithdrawalBody.mk "alice" "EQalice" 40) 9 db_alice_bob).2 in
  request_withdrawal (WithdrawalBody.mk "alice" "EQalice" 40) 10 db1
  = (inl InvalidAmount, db1).
Proof.
  apply (second_withdrawal_checked_against_rest db_alice_bob
           (WithdrawalBody.mk "alice" "EQalice" 40)
           (WithdrawalBody.mk "alice" "EQalice" 40) 9 10 alice).
  - reflexivity.
  - reflexivity.
  - simpl. lia.
  - simpl. lia.
Defined.

(** ** What holds in every database a sequential run can reach *)

Lemma update_one_inc_balance_Forall (P : User.t → Prop) name delta c :
  (∀ u, P u → P (User.inc_balance delta u)) →
  Forall P c → Forall P (update_one_inc_balance name delta c).
Proof.
  intros HP. induction 1 as [|v c Hv Hc IH]; simpl; [done|].
  case_decide; constructor; auto.
Qed.

Lemma effect_never_banned db db' :
  effect db db' → never_banned db → never_banned db'.
Proof.
  unfold never_banned.
  intros [|body now Hf|sess|body now u Hf Hb|body now u Hf Hp] Hnb; simpl; try done.
  - apply Forall_app. split; [done|]. by repeat constructor.
  - by apply update_one_inc_balance_Forall.
  - by apply update_one_inc_balance_Forall.
Qed.

Lemma effect_records_wf db db' :
  effect db db' → records_wf db → records_wf db'.
Proof.
  intros [|body now Hf|sess|body now u Hf Hb|body now u Hf Hp] [Hr Hw];
    constructor; simpl; try done.
  - apply Forall_app. split; [done|]. by repeat constructor.
  - apply Forall_app. split; [done|].
    constructor; [split; simpl; [lia|done] | constructor].
Qed.

Lemma reachable_inv rqs :
  let db := run rqs empty_db in
  ledger_inv db ∧ balances_nonneg db ∧ never_banned db ∧ records_wf db.
Proof.
  apply (run_invariant
           (λ db, ledger_inv db ∧ balances_nonneg db ∧ never_banned db ∧ records_wf db)).
  - intros db db' Heff (? & ? & ? & ?).
    split_and!; eauto using effect_ledger_inv, effect_balances_nonneg,
                            effect_never_banned, effect_records_wf.
  - split_and!; [apply ledger_inv_empty | constructor | constructor |].
    constructor; constructor.
Qed.

(** X8: however often and in whatever order usernames are registered,
    no two stored user documents have the same username. *)
Theorem usernames_unique (rqs : list request) :
  NoDup (User.username <$> user (run rqs empty_db)).
Proof. by destruct (reachable_inv rqs) as ([? _ _ _] & _). Qed.

(** X9: every reward record and every withdrawal record a run leaves
    behind carries the username of a stored user. *)
Theorem ledger_records_have_owner (rqs : list request) :
  let db := run rqs empty_db in
  (∀ r, r ∈ reward db → is_Some (find_one (Reward.username r) (user db)))
  ∧ (∀ w, w ∈ withdrawalrequest db →
          is_Some (find_one (Withdrawalrequest.username w) (user db))).
Proof.
  intros db. destruct (reachable_inv rqs) as ([_ Hr Hw _] & _). fold db in Hr, Hw.
  rewrite Forall_forall in Hr. rewrite Forall_forall in Hw.
  split; intros x Hx; apply not_eq_None_Some; rewrite find_one_None; auto.
Qed.

Lemma ledger_records_have_owner_witness :
  let db := run bob_session empty_db in
  (∀ r, r ∈ reward db → is_Some (find_one (Reward.username r) (user db)))
  ∧ (∀ w, w ∈ withdrawalrequest db →
          is_Some (find_one (Withdrawalrequest.username w) (user db))).
Proof. apply (ledger_records_have_owner bob_session). Defined.

(** X10: no handler sets [is_banned].  In a run that starts from the
    empty database no stored user is banned, and no request raises
    Forbidden (HTTP 403). *)
Theorem no_ban_no_forbidden (rqs : list request) (rq : request) :
  let db := run rqs empty_db in
  (∀ u, u ∈ user db → User.is_banned u = false)
  ∧ outcome db rq ≠ Some (HTTPException 403 "User banned").
Proof.
  intros db. destruct (reachable_inv rqs) as (_ & _ & Hnb & _). fold db in Hnb.
  unfold never_banned in Hnb. rewrite Forall_forall in Hnb.
  split; [done|].
  destruct rq as [body now|body now|body now|body now|limit]; unfold outcome, raised.
  - destruct (find_one (RegisterBody.username body) (user db)) as [u|] eqn:Hf.
    + by rewrite (register_existing _ _ _ _ Hf).
    + by rewrite (register_new _ _ _ Hf).
  - destruct (find_one (StartSessionBody.username body) (user db)) as [u|] eqn:Hf.
    + rewrite (start_session_found _ _ _ _ Hf).
      by rewrite (Hnb u (find_one_elem_of _ _ _ Hf)).
    + unfold start_session. by rewrite (handler_not_found _ _ _ Hf).
  - destruct (find_one (SubmitScoreBody.username body) (user db)) as [u|] eqn:Hf.
    + by rewrite (submit_score_ok _ _ _ _ Hf (Hnb u (find_one_elem_of _ _ _ Hf))).
    + unfold submit_score. by rewrite (handler_not_found _ _ _ Hf).
  - pose proof (request_withdrawal_never_forbidden db body now) as Hnf.
    destruct (request_withdrawal body now db) as [[e|resp] db']; [|done].
    simpl in *. intros [= ->]. by apply Hnf.
  - destruct (decide (0 < limit)).
    + by rewrite leaderboard_positive.
    + by rewrite leaderboard_not_positive by lia.
Qed.

Lemma no_ban_no_forbidden_witness :
  let db := run bob_session empty_db in
  (∀ u, u ∈ user db → User.is_banned u = false)
  ∧ outcome db (PostSubmitScore (SubmitScoreBody.mk "bob" "word" 77 5) 8)
    ≠ Some (HTTPException 403 "User banned").
Proof.
  apply (no_ban_no_forbidden bob_session
           (PostSubmitScore (SubmitScoreBody.mk "bob" "word" 77 5) 8)).
Defined.

(** X11: every withdrawal record a run leaves behind is pending and for
    at least one point, as the [Withdrawalrequest] model asks, and every
    stored user meets the [User] model's bound on the balance. *)
Theorem stored_withdrawals_meet_schema (rqs : list request) :
  let db := run rqs empty_db in
  (∀ w, w ∈ withdrawalrequest db →
        schema_Withdrawalrequest w ∧ Withdrawalrequest.status w = pending)
  ∧ (∀ u, u ∈ user db → schema_User u).
Proof.
  intros db. destruct (reachable_inv rqs) as (_ & Hnn & _ & [_ Hw]).
  fold db in Hnn, Hw. unfold balances_nonneg in Hnn.
  rewrite Forall_forall in Hnn. rewrite Forall_forall in Hw.
  split; [exact Hw | exact Hnn].
Qed.

Lemma stored_withdrawals_meet_schema_witness :
  let db := run bob_session empty_db in
  (∀ w, w ∈ withdrawalrequest db →
        schema_Withdrawalrequest w ∧ Withdrawalrequest.status w = pending)
  ∧ (∀ u, u ∈ user db → schema_User u).
Proof. apply (stored_withdrawals_meet_schema bob_session). Defined.

(** X12: every reward record a run leaves behind carries the award of
    its own game and score, between 0 and 100, and the reason
    "session_completed". *)
Theorem stored_rewards_carry_award (rqs : list request) (r : Reward.t) :
  r ∈ reward (run rqs empty_db) →
  Reward.points_awarded r = points_for (Reward.game r) (Reward.score r)
  ∧ 0 ≤ Reward.points_awarded r ≤ 100
  ∧ Reward.reason r = "session_completed".
Proof.
  destruct (reachable_inv rqs) as (_ & _ & _ & [Hr _]).
  rewrite Forall_forall in Hr. intros [Hpts Hreason]%Hr.
  split_and!; [done | | | done]; rewrite Hpts; apply points_for_range.
Qed.

Lemma stored_rewards_carry_award_witness :
  let r := Reward.mk "bob" "chess" 250 25 "session_completed" 4 in
  Reward.points_awarded r = points_for (Reward.game r) (Reward.score r)
  ∧ 0 ≤ Reward.points_awarded r ≤ 100
  ∧ Reward.reason r = "session_completed".
Proof.
  apply (stored_rewards_carry_award bob_session
           (Reward.mk "bob" "chess" 250 25 "session_completed" 4)).
  vm_compute. right. left.
Defined.

(** X13: [submit_score] does not check its body against the [Reward]
    model.  For a stored user who is not banned, the record it stores
    meets the model exactly when the game is one of word, tiles and
    parking and the score is not negative. *)
Theorem stored_reward_meets_schema_iff db body now u :
  find_one (SubmitScoreBody.username body) (user db) = Some u →
  User.is_banned u = false →
  ∃ r, reward (submit_score body now db).2 = reward db ++ [r]
       ∧ (schema_Reward r
          ↔ SubmitScoreBody.game body ∈ games ∧ 0 ≤ SubmitScoreBody.score body).
Proof.
  intros Hf Hb. rewrite (submit_score_ok _ _ _ _ Hf Hb). simpl.
  eexists. split; [done|]. unfold schema_Reward. simpl.
  pose proof (points_for_range (SubmitScoreBody.game body) (SubmitScoreBody.score body)).
  split; [by intros (? & ? & ?) | intros [? ?]; split_and!; [done | done | lia]].
Qed.

Lemma stored_reward_meets_schema_iff_witness :
  ∃ r, reward (submit_score (SubmitScoreBody.mk "bob" "chess" (-3) 10) 9 db_alice_bob).2
       = reward db_alice_bob ++ [r]
       ∧ (schema_Reward r ↔ "chess" ∈ games ∧ 0 ≤ -3).
Proof.
  apply (stored_reward_meets_schema_iff db_alice_bob
           (SubmitScoreBody.mk "bob" "chess" (-3) 10) 9 bob); reflexivity.
Defined.

(** ** Nothing stored is ever removed or rewritten *)

Lemma update_one_inc_balance_identity name delta c :
  identity <$> update_one_inc_balance name delta c = identity <$> c.
Proof.
  induction c as [|v c IH]; csimpl; [done|].
  case_decide; csimpl; [done | by rewrite IH].
Qed.

Lemma grows_refl db : grows db db.
Proof. by constructor. Qed.

Lemma grows_trans db1 db2 db3 : grows db1 db2 → grows db2 db3 → grows db1 db3.
Proof. intros [] []. constructor; by etrans. Qed.

Lemma effect_grows db db' : effect db db' → grows db db'.
Proof.
  intros [|body now Hf|sess|body now u Hf Hb|body now u Hf Hp];
    constructor; simpl;
    rewrite ?update_one_inc_balance_identity, ?fmap_app;
    try done; by apply prefix_app_r.
Qed.

Lemma identity_prefix_find_one name c c' u :
  (identity <$> c) `prefix_of` (identity <$> c') →
  find_one name c = Some u →
  ∃ u', find_one name c' = Some u' ∧ identity u' = identity u.
Proof.
  revert c'. induction c as [|v c IH]; intros c' Hpre; simpl; [done|].
  destruct c' as [|v' c']; csimpl in *; [by apply prefix_nil_not in Hpre|].
  pose proof (prefix_cons_inv_1 _ _ _ _ Hpre) as Hid.
  apply prefix_cons_inv_2 in Hpre.
  assert (User.username v' = User.username v) as Hname
    by (unfold identity in Hid; congruence).
  rewrite Hname.
  destruct (decide (User.username v = name)).
  - intros [= <-]. by exists v'.
  - by apply IH.
Qed.

(** X14: whatever requests are run, from whatever database, nothing
    stored is removed or rewritten, except balances: sessions, rewards
    and withdrawal records stay where they are, new ones coming after
    them, and a user who could be looked up before can be looked up
    afterwards, with the same username, wallet address, referrer, ban
    flag and creation time. *)
Theorem run_only_appends (rqs : list request) (db : Database) :
  let db' := run rqs db in
  gamesession db `prefix_of` gamesession db'
  ∧ reward db `prefix_of` reward db'
  ∧ withdrawalrequest db `prefix_of` withdrawalrequest db'
  ∧ (identity <$> user db) `prefix_of` (identity <$> user db')
  ∧ (∀ name u, find_one name (user db) = Some u →
               ∃ u', find_one name (user db') = Some u' ∧ identity u' = identity u).
Proof.
  intros db'.
  assert (grows db db') as [Hu Hs Hr Hw].
  { apply (run_invariant (grows db)); [|apply grows_refl].
    intros db1 db2 Heff Hg. eapply grows_trans; [done | by apply effect_grows]. }
  split_and!; try done.
  intros name u. by apply identity_prefix_find_one.
Qed.

Lemma run_only_appends_witness :
  let db' := run bob_session db_alice_bob in
  gamesession db_alice_bob `prefix_of` gamesession db'
  ∧ reward db_alice_bob `prefix_of` reward db'
  ∧ withdrawalrequest db_alice_bob `prefix_of` withdrawalrequest db'
  ∧ (identity <$> user db_alice_bob) `prefix_of` (identity <$> user db')
  ∧ (∀ name u, find_one name (user db_alice_bob) = Some u →
               ∃ u', find_one name (user db') = Some u' ∧ identity u' = identity u).
Proof. apply (run_only_appends bob_session db_alice_bob). Defined.

(** ** Balance, awards and withdrawals *)

Lemma sum_withdrawn_nonneg name ws :
  Forall (λ w, 1 ≤ Withdrawalrequest.points w
               ∧ Withdrawalrequest.status w = pending) ws →
  0 ≤ sum_withdrawn name ws.
Proof.
  induction 1 as [|w ws [Hw _] _ IH]; simpl; [done|].
  case_decide; lia.
Qed.

Lemma sum_points_awarded_cap name rs :
  Forall (λ r, Reward.points_awarded r = points_for (Reward.game r) (Reward.score r)
               ∧ Reward.reason r = "session_completed") rs →
  0 ≤ sum_points_awarded name rs ≤ 100 * count_rewards name rs.
Proof.
  induction 1 as [|r rs [Hr _] _ IH]; simpl; [done|].
  pose proof (points_for_range (Reward.game r) (Reward.score r)).
  case_decide; lia.
Qed.

(** X15: no overdraft in sequence.  For every stored user of a run from
    the empty database, the points in the user's withdrawal requests
    add up to no more than the points the user was awarded. *)
Theorem withdrawn_at_most_awarded (rqs : list request) (u : User.t) :
  let db := run rqs empty_db in
  u ∈ user db →
  0 ≤ sum_withdrawn (User.username u) (withdrawalrequest db)
    ≤ sum_points_awarded (User.username u) (reward db).
Proof.
  intros db Hu.
  destruct (reachable_inv rqs) as ([_ _ _ Hbal] & Hnn & _ & [_ Hw]).
  fold db in Hbal, Hnn, Hw. unfold balances_nonneg in Hnn.
  rewrite Forall_forall in Hbal. rewrite Forall_forall in Hnn.
  specialize (Hbal u Hu). specialize (Hnn u Hu). simpl in *.
  pose proof (sum_withdrawn_nonneg (User.username u) _ Hw). lia.
Qed.

Lemma withdrawn_at_most_awarded_witness :
  let db := run bob_session empty_db in
  0 ≤ sum_withdrawn "bob" (withdrawalrequest db)
    ≤ sum_points_awarded "bob" (reward db).
Proof.
  apply (withdrawn_at_most_awarded bob_session
           (User.mk "bob" (Some "EQbob") None false 50 1)).
  vm_compute. left.
Defined.

(** X16: the cap bounds what a user can hold.  For every stored user of
    a run from the empty database the balance is at most 100 times the
    number of the user's reward records. *)
Theorem balance_at_most_100_per_reward (rqs : list request) (u : User.t) :
  let db := run rqs empty_db in
  u ∈ user db →
  User.balance u ≤ 100 * count_rewards (User.username u) (reward db).
Proof.
  intros db Hu.
  destruct (reachable_inv rqs) as ([_ _ _ Hbal] & _ & _ & [Hr Hw]).
  fold db in Hbal, Hr, Hw. rewrite Forall_forall in Hbal.
  specialize (Hbal u Hu). simpl in *.
  pose proof (sum_withdrawn_nonneg (User.username u) _ Hw).
  pose proof (sum_points_awarded_cap (User.username u) _ Hr). lia.
Qed.

Lemma balance_at_most_100_per_reward_witness :
  let db := run bob_session empty_db in
  User.balance (User.mk "bob" (Some "EQbob") None false 50 1)
  ≤ 100 * count_rewards "bob" (reward db).
Proof.
  apply (balance_at_most_100_per_reward bob_session
           (User.mk "bob" (Some "EQbob") None false 50 1)).
  vm_compute. left.
Defined.

(** ** The leaderboard and the other routes *)

Lemma leaderboard_reward limit db1 db2 :
  reward db1 = reward db2 → (leaderboard limit db1).1 = (leaderboard limit db2).1.
Proof.
  intros Hr. unfold leaderboard, mbind, M_bind, get_db. rewrite Hr.
  by destruct (aggregate limit (reward db2)).
Qed.

Lemma handle_reward db rq :
  (∀ body now, rq ≠ PostSubmitScore body now) → reward (handle db rq) = reward db.
Proof.
  intros Hrq. destruct rq as [body now|body now|body now|body now|limit]; simpl.
  - destruct (find_one (RegisterBody.username body) (user db)) as [u|] eqn:Hf.
    + by rewrite (register_existing _ _ _ _ Hf).
    + by rewrite (register_new _ _ _ Hf).
  - destruct (find_one (StartSessionBody.username body) (user db)) as [u|] eqn:Hf.
    + rewrite (start_session_found _ _ _ _ Hf). by destruct (User.is_banned u).
    + unfold start_session. by rewrite (handler_not_found _ _ _ Hf).
  - by destruct (Hrq body now).
  - destruct (find_one (WithdrawalBody.username body) (user db)) as [u|] eqn:Hf.
    + destruct (decide (WithdrawalBody.points body ≤ 0
                        ∨ WithdrawalBody.points body > User.balance u)) as [Hp|Hp].
      * by rewrite (request_withdrawal_invalid _ _ _ _ Hf Hp).
      * assert (0 < WithdrawalBody.points body ≤ User.balance u) as Hp' by lia.
        by rewrite (request_withdrawal_ok _ _ _ _ Hf Hp').
    + unfold request_withdrawal. by rewrite (handler_not_found _ _ _ Hf).
  - by rewrite leaderboard_db.
Qed.

(** X17: the leaderboard counts what was earned, not what is held.
    Registrations, session starts, withdrawals and leaderboard requests
    leave its answer as it was; a withdrawal in particular takes
    nothing off a user's leaderboard points. *)
Theorem leaderboard_ignores_other_requests db rq limit :
  (∀ body now, rq ≠ PostSubmitScore body now) →
  (leaderboard limit (handle db rq)).1 = (leaderboard limit db).1.
Proof. intros Hrq. by apply leaderboard_reward, handle_reward. Qed.

Lemma leaderboard_ignores_other_requests_witness :
  (leaderboard 5
     (handle db_A_B_A (PostWithdraw (WithdrawalBody.mk "A" "EQA" 70) 9))).1
  = (leaderboard 5 db_A_B_A).1.
Proof.
  apply (leaderboard_ignores_other_requests db_A_B_A
           (PostWithdraw (WithdrawalBody.mk "A" "EQA" 70) 9) 5).
  intros body now. discriminate.
Defined.

(** X18: in a run from the empty database, the points of every
    leaderboard row are the balance of the stored user of that name
    plus the points of that user's withdrawal requests. *)
Theorem leaderboard_points_balance_plus_withdrawn
    (rqs : list request) (limit : Z) (rows : list (string * Z)) (name : string) (t : Z) :
  let db := run rqs empty_db in
  (leaderboard limit db).1 = inr rows →
  (name, t) ∈ rows →
  ∃ u, find_one name (user db) = Some u
       ∧ t = User.balance u + sum_withdrawn name (withdrawalrequest db).
Proof.
  intros db Hrows Hrow.
  destruct (decide (0 < limit)) as [Hl|Hl];
    [|by rewrite leaderboard_not_positive in Hrows by lia].
  rewrite (leaderboard_positive _ _ Hl) in Hrows. injection Hrows as <-.
  apply (top_summed _ _ _ (aggregate_top_totals _ _)) in Hrow as [Hname ->].
  destruct (reachable_inv rqs) as ([_ Hr _ Hbal] & _). fold db in Hr, Hbal.
  rewrite Forall_forall in Hr. rewrite Forall_forall in Hbal.
  apply list_elem_of_fmap in Hname as (r & -> & Hin%Hr).
  destruct (find_one (Reward.username r) (user db)) as [u|] eqn:Hf;
    [|by apply find_one_None in Hf].
  exists u. split; [done|].
  rewrite (Hbal u (find_one_elem_of _ _ _ Hf)), (find_one_username _ _ _ Hf). lia.
Qed.

Lemma leaderboard_points_balance_plus_withdrawn_witness :
  let db := run bob_session empty_db in
  ∃ u, find_one "bob" (user db) = Some u
       ∧ 125 = User.balance u + sum_withdrawn "bob" (withdrawalrequest db).
Proof.
  apply (leaderboard_points_balance_plus_withdrawn bob_session 10 [("bob", 125)]).
  - by vm_compute.
  - left.
Defined.

(** X19: with no reward records, as after registrations only, the
    leaderboard is the empty list for every positive limit. *)
Theorem leaderboard_without_rewards db limit :
  reward db = [] → 0 < limit → leaderboard limit db = (inr [], db).
Proof.
  intros Hr Hl. rewrite (leaderboard_positive _ _ Hl), Hr.
  assert (sort_stage (group_stage []) = []) as -> by (by vm_compute).
  by rewrite take_nil.
Qed.

Lemma leaderboard_without_rewards_witness :
  leaderboard 20 db_alice_bob = (inr [], db_alice_bob).
Proof.
  apply (leaderboard_without_rewards db_alice_bob 20); [reflexivity | lia].
Defined.

(** ** The profile route *)

(** X20: whatever [get_documents] does, [me] raises NotFound for a
    username that is not stored, without calling it; and right after a
    successful [submit_score] the balance [me] reports for the user is
    the balance before plus the award. *)
Theorem me_reports_credited_balance
    (get_documents : collection_name → string → Z → M (list Reward.t))
    (db : Database) (name : string) :
  (find_one name (user db) = None →
   me get_documents name db = (inl NotFound, db))
  ∧ (∀ body now u rewards db2,
       SubmitScoreBody.username body = name →
       find_one name (user db) = Some u →
       User.is_banned u = false →
       let db1 := (submit_score body now db).2 in
       get_documents c_reward name 50 db1 = (inr rewards, db2) →
       me get_documents name db1
       = (inr (mkMeResponse name
                 (User.balance u
                  + points_for (SubmitScoreBody.game body) (SubmitScoreBody.score body))
                 (User.ton_address u) rewards),
          db2)).
Proof.
  split.
  - intros Hf. unfold me. by apply handler_not_found.
  - intros body now u rewards db2 <- Hf Hb db1 Hget. subst db1.
    rewrite (submit_score_ok _ _ _ _ Hf Hb) in *. simpl in *.
    unfold me.
    erewrite handler_found;
      [|simpl; by apply find_one_update_same].
    unfold mbind, M_bind. rewrite Hget. simpl.
    by rewrite (find_one_username _ _ _ Hf).
Qed.

Lemma me_reports_credited_balance_witness :
  me (λ _ _ _, mret []) "dave" db_alice_bob = (inl NotFound, db_alice_bob)
  ∧ me (λ _ _ _, mret []) "alice"
       (submit_score (SubmitScoreBody.mk "alice" "word" 999 42) 9 db_alice_bob).2
    = (inr (mkMeResponse "alice" (70 + points_for "word" 999) (Some "EQalice") []),
       (submit_score (SubmitScoreBody.mk "alice" "word" 999 42) 9 db_alice_bob).2).
Proof.
  split.
  - destruct (me_reports_credited_balance (λ _ _ _, mret []) db_alice_bob "dave")
      as [Hunknown _].
    apply Hunknown. reflexivity.
  - destruct (me_reports_credited_balance (λ _ _ _, mret []) db_alice_bob "alice")
      as [_ Hknown].
    apply (Hknown (SubmitScoreBody.mk "alice" "word" 999 42) 9 alice []); reflexivity.
Defined.
